(** * The business-plan generator: section workflow and document accumulator

    A shallow embedding of [app.py].  The Streamlit script is re-executed from
    top to bottom on every user interaction; everything that survives between
    two executions lives in [st.session_state].  One execution is modelled as a
    computation over that session state which also records the widgets it
    renders and may stop with a Python exception.  *)

From Stdlib Require Import ZArith QArith Lia.
From stdpp Require Import base list strings.

Local Open Scope Z_scope.

(** ** Python lists indexed by integers *)

(** [len(l)] as a Python integer. *)
Definition len {A} (l : list A) : Z := Z.of_nat (length l).

(** [l[i]]: a negative index counts from the end, anything outside
    [-len(l) .. len(l)-1] raises [IndexError] (here: [None]). *)
Definition py_getitem {A} (l : list A) (i : Z) : option A :=
  if 0 <=? i then l !! Z.to_nat i
  else if - len l <=? i then l !! Z.to_nat (len l + i)
  else None.

(** [l[i] = v], with the same index rules. *)
Definition py_setitem {A} (l : list A) (i : Z) (v : A) : option (list A) :=
  if 0 <=? i then
    if i <? len l then Some (<[Z.to_nat i := v]> l) else None
  else if - len l <=? i then Some (<[Z.to_nat (len l + i) := v]> l)
  else None.

(** ** The document ([docx.Document]) *)

(** Only the two kinds of block the script adds are modelled; the body of the
    document is the sequence of blocks in the order they were added. *)
Inductive Block : Type :=
| Heading (text : string) (level : Z)
| Paragraph (text : string).

Abbreviation Document := (list Block).

Definition add_heading (text : string) (level : Z) (d : Document) : Document :=
  d ++ [Heading text level].

Definition add_paragraph (text : string) (d : Document) : Document :=
  d ++ [Paragraph text].

(** The section entries of a document: every level-1 heading that is followed
    by a paragraph, paired with that paragraph.  The title (level 0) is not an
    entry. *)
Fixpoint entries (d : Document) : list (string * string) :=
  match d with
  | Heading h 1 :: ((Paragraph p :: _) as rest) => (h, p) :: entries rest
  | _ :: rest => entries rest
  | [] => []
  end.

(** ** Session state *)

Record SessionState : Type := mkSession {
  step : Z;
  business_name : string;
  industry : string;
  core_product : string;
  problem_solved : string;
  additional_info : string;
  doc : Document;
  section_contents : list string
}.

Definition set_step (v : Z) (s : SessionState) : SessionState :=
  mkSession v (business_name s) (industry s) (core_product s)
            (problem_solved s) (additional_info s) (doc s) (section_contents s).

Definition set_doc (d : Document) (s : SessionState) : SessionState :=
  mkSession (step s) (business_name s) (industry s) (core_product s)
            (problem_solved s) (additional_info s) d (section_contents s).

Definition set_section_contents (l : list string) (s : SessionState) : SessionState :=
  mkSession (step s) (business_name s) (industry s) (core_product s)
            (problem_solved s) (additional_info s) (doc s) l.

(** The five fields of the business profile, as a value of their own. *)
Record BusinessProfile : Type := mkProfile {
  p_business_name : string;
  p_industry : string;
  p_core_product : string;
  p_problem_solved : string;
  p_additional_info : string
}.

Definition profile (s : SessionState) : BusinessProfile :=
  mkProfile (business_name s) (industry s) (core_product s)
            (problem_solved s) (additional_info s).

Definition set_profile (p : BusinessProfile) (s : SessionState) : SessionState :=
  mkSession (step s) (p_business_name p) (p_industry p) (p_core_product p)
            (p_problem_solved p) (p_additional_info p) (doc s) (section_contents s).

(** ** What the user and the outside world contribute to one execution *)

(** The buttons of the page, the download button and the submit button of
    the form included: a click on any of them causes an execution. *)
Inductive Button : Type :=
| StartGenerating
| PreviousSection
| NextSection
| Complete
| StartOver
| DownloadBusinessPlan
| SaveBusinessDetails.

#[global] Instance Button_eq_dec : EqDecision Button.
Proof. solve_decision. Defined.

(** The request sent to [openai.ChatCompletion.create]. *)
Record ChatRequest : Type := mkRequest {
  req_model : string;
  req_system : string;
  req_user : string
}.

(** Its result: the text in [response.choices[0]['message']['content']], or
    any exception raised on the way, with its message. *)
Inductive Completion : Type :=
| Content (text : string)
| ApiError (msg : string).

(** What is known when python-docx fails to put a text into a paragraph: the
    message of the [ValueError] it raises, and the part of the text that is in
    the paragraph by then. *)
Record DocxError : Type := mkDocxError {
  message : string;
  written : string
}.

(** One execution of the script sees: the sidebar inputs, the value of each
    form field ([None]: the widget reports the value it was given as its
    default, i.e. nothing new was submitted), the button whose click caused
    this execution (at most one), the answer of the language model, and the
    document library.  [docx_rejects text] says what python-docx does when
    asked to put [text] into a new paragraph: [None] when it takes the text;
    otherwise the [ValueError] it raises (it does so for text that is not XML
    compatible, such as control characters) with the part of the text it has
    written before (it writes a text piece by piece, the pieces ending at
    the tabs and line breaks). *)
Record Env : Type := mkEnv {
  api_key : string;
  model_choice : string;
  in_business_name : option string;
  in_industry : option string;
  in_core_product : option string;
  in_problem_solved : option string;
  in_additional_info : option string;
  clicked : option Button;
  chat_completion : ChatRequest -> Completion;
  docx_rejects : string -> option DocxError
}.

(** ** What one execution shows *)

Inductive UiOut : Type :=
| Warning (msg : string)
| Success (msg : string)
| Error (msg : string)
| Progress (value : Q)
| Caption (section_number of_total : Z)
| TextArea (label value : string)
| ButtonShown (b : Button)
| DownloadButton (data : Document) (file_name : string).

(** ** Script computations *)

Inductive Exn : Type :=
| IndexError
| ZeroDivisionError
| StreamlitAPIException
| RerunException
| ValueError (msg : string).

Inductive Outcome (A : Type) : Type :=
| Returns (a : A)
| Raises (e : Exn).
Arguments Returns {A} a.
Arguments Raises {A} e.

(** The result of running part of the script: how it ended, the session state
    it left behind (mutations made before an exception stay), and the widgets
    rendered so far. *)
Record Run (A : Type) : Type := mkRun {
  outcome : Outcome A;
  session : SessionState;
  shown : list UiOut
}.
Arguments mkRun {A} outcome session shown.
Arguments outcome {A} r.
Arguments session {A} r.
Arguments shown {A} r.

Definition Script (A : Type) : Type := SessionState -> list UiOut -> Run A.

Definition ret {A} (a : A) : Script A := fun s o => mkRun (Returns a) s o.

Definition bind {A B} (c : Script A) (k : A -> Script B) : Script B :=
  fun s o =>
    let r := c s o in
    match outcome r with
    | Returns a => k a (session r) (shown r)
    | Raises e => mkRun (Raises e) (session r) (shown r)
    end.

Definition raise {A} (e : Exn) : Script A := fun s o => mkRun (Raises e) s o.
Definition get : Script SessionState := fun s o => mkRun (Returns s) s o.
Definition modify (f : SessionState -> SessionState) : Script unit :=
  fun s o => mkRun (Returns tt) (f s) o.
Definition render (w : UiOut) : Script unit :=
  fun s o => mkRun (Returns tt) s (o ++ [w]).

(** [str(e)] for an exception caught by a handler.  In this script only a
    [ValueError] reaches a handler; for Streamlit's exception the value it
    adds to its message is left out. *)
Definition str_exn (e : Exn) : string :=
  match e with
  | IndexError => "list index out of range"
  | ZeroDivisionError => "division by zero"
  | StreamlitAPIException => "Progress Value has invalid value [0.0, 1.0]"
  | RerunException => ""
  | ValueError msg => msg
  end.

(** [try: c  except Exception as e: h e].  The handler runs in the state and
    with the page the body left behind.  The rerun request is not an
    [Exception] in Streamlit and passes through. *)
Definition try_except {A} (c : Script A) (h : Exn -> Script A) : Script A :=
  fun s o =>
    let r := c s o in
    match outcome r with
    | Returns _ => r
    | Raises RerunException => r
    | Raises e => h e (session r) (shown r)
    end.

Declare Scope script_scope.
Delimit Scope script_scope with script.
Notation "x <- c ;; k" := (bind c (fun x => k))
  (at level 100, c at next level, k at level 200, right associativity) : script_scope.
Notation "c ;; k" := (bind c (fun _ => k))
  (at level 100, k at level 200, right associativity) : script_scope.
Local Open Scope script_scope.

(** Subscripting inside the script. *)
Definition getitem {A} (l : list A) (i : Z) : Script A :=
  match py_getitem l i with
  | Some x => ret x
  | None => raise IndexError
  end.

(** [st.button(label)]: renders the button and returns whether its click is
    what caused this execution. *)
Definition st_button (env : Env) (b : Button) : Script bool :=
  render (ButtonShown b) ;;
  ret (bool_decide (clicked env = Some b)).

(** [st.progress(value)] with a float argument: Streamlit accepts only values
    in [0.0, 1.0] and raises [StreamlitAPIException] otherwise. *)
Definition st_progress (v : Q) : Script unit :=
  if Qle_bool 0 v && Qle_bool v 1 then render (Progress v)
  else raise StreamlitAPIException.

(** [st.rerun()] stops the current execution at once. *)
Definition st_rerun : Script unit := raise RerunException.

(** [st.text_input(label, value)] inside the form. *)
Definition st_text_input (submitted : option string) (value : string) : string :=
  default value submitted.

(** Python truthiness of a string. *)
Definition truthy (s : string) : bool := negb (String.eqb s "").

Definition nl : string := String (Ascii.ascii_of_nat 10) EmptyString.

(** ** The script *)

Module App.
(** The constant of [app.py]. *)
Definition SECTIONS_TEMPLATE : list string :=
  [ "Executive Summary";
    "Company Description";
    "Market Analysis";
    "Organization & Management";
    "Service or Product Line";
    "Marketing & Sales";
    "Funding Request";
    "Financial Projections";
    "Appendix" ].
End App.

Definition create_system_prompt : string :=
  "Generate a comprehensive business plan." +:+ nl +:+
  "The user is planning to start a business and needs a structured plan." +:+ nl +:+
  "1. Understand the business details provided by the user." +:+ nl +:+
  "2. Ensure the content is organized and coherent." +:+ nl +:+
  "3. Stay within the scope of a business plan." +:+ nl +:+
  "Based on the provided details, create a detailed section of a business plan." +:+ nl +:+
  "Business name, industry, core product/service, problem solved, and any additional information.".

(** The functions of the script, over an arbitrary section template: the
    source fixes it to [App.SECTIONS_TEMPLATE]. *)
Section Script.

Variable SECTIONS_TEMPLATE : list string.
Variable env : Env.

(** The session state written by [init_session_state] when ['step'] is not
    yet in [st.session_state].  The title is a fixed plain text, which the
    document library takes. *)
Definition fresh_session : SessionState :=
  {| step := -1;
     business_name := "";
     industry := "";
     core_product := "";
     problem_solved := "";
     additional_info := "";
     doc := add_heading "Business Plan" 0 [];
     section_contents := replicate (length SECTIONS_TEMPLATE) "" |}.

Definition init_session_state (st_session_state : option SessionState) : SessionState :=
  match st_session_state with
  | None => fresh_session
  | Some s => s
  end.

Definition input_ui : Script unit :=
  s <- get ;;
  modify (set_profile
    {| p_business_name := st_text_input (in_business_name env) (business_name s);
       p_industry := st_text_input (in_industry env) (industry s);
       p_core_product := st_text_input (in_core_product env) (core_product s);
       p_problem_solved := st_text_input (in_problem_solved env) (problem_solved s);
       p_additional_info := st_text_input (in_additional_info env) (additional_info s) |}) ;;
  submitted <- st_button env SaveBusinessDetails ;;
  if submitted : bool then render (Success "Business details saved!") else ret tt.

(** [step / (len(SECTIONS_TEMPLATE) - 1)] is Python's true division of two
    integers.  Its result is kept as the exact quotient: the float the
    interpreter returns is that quotient rounded to the nearest double, which
    preserves the comparisons with 0 and 1 made below.  A zero divisor raises
    [ZeroDivisionError]. *)
Definition calculate_progress : Script Q :=
  s <- get ;;
  let step := Z.max 0 (step s) in
  if len SECTIONS_TEMPLATE - 1 =? 0 then raise ZeroDivisionError
  else ret (inject_Z step / inject_Z (len SECTIONS_TEMPLATE - 1))%Q.

(** The error python-docx raises on a text, if any.  It puts a text into a
    paragraph only when the text is not empty, so the empty text is always
    taken. *)
Definition docx_error (text : string) : option DocxError :=
  if String.eqb text "" then None else docx_rejects env text.

(** [st.session_state.doc.add_heading(text, level)] and
    [st.session_state.doc.add_paragraph(text)].  python-docx appends an empty
    paragraph, then puts the text in, then sets the style: when the text is
    rejected, the paragraph has been appended and stays, with what was written
    of the text (nothing, when its first piece is rejected) and without the
    style of a heading. *)
Definition doc_add_heading (text : string) (level : Z) : Script unit :=
  match docx_error text with
  | None => modify (fun s => set_doc (add_heading text level (doc s)) s)
  | Some e =>
      modify (fun s => set_doc (add_paragraph (written e) (doc s)) s) ;;
      raise (ValueError (message e))
  end.

Definition doc_add_paragraph (text : string) : Script unit :=
  match docx_error text with
  | None => modify (fun s => set_doc (add_paragraph text (doc s)) s)
  | Some e =>
      modify (fun s => set_doc (add_paragraph (written e) (doc s)) s) ;;
      raise (ValueError (message e))
  end.

Definition add_section_to_document (section content : string) : Script unit :=
  doc_add_heading section 1 ;;
  doc_add_paragraph content.

(** The user instruction built from the section name and the profile. *)
Definition user_input (section : string) (s : SessionState) : string :=
  "Elaborate on the '" +:+ section +:+ "' section for " +:+ business_name s +:+ ", " +:+
  "a " +:+ industry s +:+ " business offering " +:+ core_product s +:+ " " +:+
  "to solve " +:+ problem_solved s +:+ ". " +:+
  "Additional Info: " +:+ additional_info s.

Definition generate_section_content (section system_prompt model : string) : Script string :=
  s <- get ;;
  match chat_completion env (mkRequest model system_prompt (user_input section s)) with
  | Content content =>
      try_except
        (add_section_to_document section content ;;
         ret content)
        (fun e =>
           render (Error ("An error occurred: " +:+ str_exn e)) ;;
           ret "")
  | ApiError e =>
      render (Error ("An error occurred: " +:+ e)) ;;
      ret ""
  end.

(** [st.session_state.section_contents[i] = v] *)
Definition store_section_content (i : Z) (v : string) : Script unit :=
  s <- get ;;
  match py_setitem (section_contents s) i v with
  | Some l => modify (set_section_contents l)
  | None => raise IndexError
  end.

Definition navigation_buttons (system_prompt model : string) : Script unit :=
  s <- get ;;
  (if 0 <? step s then
     b <- st_button env PreviousSection ;;
     if b : bool then modify (fun s => set_step (step s - 1) s) else ret tt
   else ret tt) ;;
  s <- get ;;
  if step s <? len SECTIONS_TEMPLATE - 1 then
    b <- st_button env NextSection ;;
    if b : bool then
      modify (fun s => set_step (step s + 1) s) ;;
      s <- get ;;
      section <- getitem SECTIONS_TEMPLATE (step s) ;;
      content <- generate_section_content section system_prompt model ;;
      s <- get ;;
      store_section_content (step s) content ;;
      st_rerun
    else ret tt
  else
    b <- st_button env Complete ;;
    if b : bool then modify (set_step (len SECTIONS_TEMPLATE)) else ret tt.

Definition section_content_ui (system_prompt model : string) : Script unit :=
  s <- get ;;
  if 0 <=? step s then
    progress_percent <- calculate_progress ;;
    st_progress progress_percent ;;
    render (Caption (step s + 1) (len SECTIONS_TEMPLATE)) ;;
    section <- getitem SECTIONS_TEMPLATE (step s) ;;
    value <- getitem (section_contents s) (step s) ;;
    render (TextArea section value) ;;
    navigation_buttons system_prompt model
  else ret tt.

Definition handle_section_generation (system_prompt model : string) : Script unit :=
  s <- get ;;
  if step s =? -1 then
    b <- st_button env StartGenerating ;;
    if b : bool then
      modify (set_step 0) ;;
      section <- getitem SECTIONS_TEMPLATE 0 ;;
      content <- generate_section_content section system_prompt model ;;
      store_section_content 0 content ;;
      st_rerun
    else ret tt
  else section_content_ui system_prompt model.

(** The saved file is the document as it is at that moment; the download
    button offers that file. *)
Definition completion_ui : Script unit :=
  s <- get ;;
  if len SECTIONS_TEMPLATE <=? step s then
    render (Success "Business plan is complete!") ;;
    let saved := doc s in
    render (DownloadButton saved "business_plan.docx") ;;
    b <- st_button env StartOver ;;
    if b : bool then modify (set_step (-1)) else ret tt
  else ret tt.

(** The body of [main] once the key and the model are given and the session
    state is initialised. *)
Definition main_body : Script unit :=
  let system_prompt := create_system_prompt in
  input_ui ;;
  handle_section_generation system_prompt (model_choice env) ;;
  completion_ui.

(** One execution of the script on the stored session state ([None]: nothing
    stored yet).  Returns what is stored afterwards, together with how the
    execution ended and what it showed.  The sidebar inputs come from [env];
    the assignment to [openai.api_key] has no counterpart here, the answer of
    the service being part of [env]. *)
Definition main (st_session_state : option SessionState)
  : option SessionState * Outcome unit * list UiOut :=
  if truthy (api_key env) && truthy (model_choice env) then
    let r := main_body (init_session_state st_session_state) [] in
    (Some (session r), outcome r, shown r)
  else
    (st_session_state, Returns tt,
     [Warning "Please enter your OpenAI API Key and select a model to start."]).

End Script.

(** ** Sessions *)

Definition stored (r : option SessionState * Outcome unit * list UiOut)
  : option SessionState := fst (fst r).
Definition ended (r : option SessionState * Outcome unit * list UiOut)
  : Outcome unit := snd (fst r).
Definition page (r : option SessionState * Outcome unit * list UiOut)
  : list UiOut := snd r.

(** The key and the model are given, so [main] runs its body. *)
Definition configured (env : Env) : Prop :=
  truthy (api_key env) && truthy (model_choice env) = true.

(** What happens to the stored session state in the course of a lifetime: a
    whole execution of the script, or [completion_ui] on its own.  The second
    is there so that the Start Over branch is covered by the statements about
    lifetimes even where a whole execution does not get to it. *)
Inductive Call : Type :=
| Whole (env : Env)
| CompletionOnly (env : Env).

Definition perform (T : list string) (c : Call) (store : option SessionState)
  : option SessionState :=
  match c with
  | Whole env => stored (main T env store)
  | CompletionOnly env =>
      match store with
      | Some s => Some (session (completion_ui T env s []))
      | None => None
      end
  end.

Definition step_of (store : option SessionState) : Z :=
  match store with
  | Some s => step s
  | None => -1
  end.

(** A lifetime from a given store; the second component is the highest step
    seen so far. *)
Fixpoint lifetime (T : list string) (cs : list Call)
         (store : option SessionState) (high : Z) : option SessionState * Z :=
  match cs with
  | [] => (store, high)
  | c :: cs' =>
      let store' := perform T c store in
      lifetime T cs' store' (Z.max high (step_of store'))
  end.

(** The states a lifetime that starts with nothing stored can be in. *)
Definition reachable (T : list string) (s : SessionState) : Prop :=
  exists cs, fst (lifetime T cs None (-1)) = Some s.

(** The calls after which a section may be generated a second time: a click
    on Previous Section, and a separate run of the Start Over branch. *)
Definition goes_back (c : Call) : bool :=
  match c with
  | Whole env => bool_decide (clicked env = Some PreviousSection)
  | CompletionOnly _ => true
  end.

(** A lifetime in which no section is generated twice. *)
Definition forward_only (cs : list Call) : Prop :=
  Forall (fun c => goes_back c = false) cs.

Definition entry_count (d : Document) : Z := len (entries d).

(** All five profile fields are still the empty strings they start as. *)
Definition profile_absent (s : SessionState) : Prop :=
  profile s = mkProfile "" "" "" "" "".

(** An execution caused by a click on [b], with the key and the model given,
    nothing new in the form, [answer] as the language model's reply and
    [rejects] as the document library. *)
Definition click_with (rejects : string -> option DocxError)
           (b : Button) (answer : Completion) : Env :=
  {| api_key := "sk-test";
     model_choice := "gpt-3.5-turbo";
     in_business_name := None;
     in_industry := None;
     in_core_product := None;
     in_problem_solved := None;
     in_additional_info := None;
     clicked := Some b;
     chat_completion := fun _ => answer;
     docx_rejects := rejects |}.

(** The document library of the concrete lifetimes below.  It writes a text
    piece by piece, a piece ending at a tab, a line feed or a carriage return,
    and rejects a piece that holds a NUL byte or another control character:
    the paragraph then holds the pieces before that one.  It takes the plain
    texts those lifetimes use. *)
Definition control_character (c : Ascii.ascii) : bool :=
  let n := Ascii.nat_of_ascii c in
  Nat.ltb n 32 && negb (Nat.eqb n 9) && negb (Nat.eqb n 10) && negb (Nat.eqb n 13).

Definition separator (c : Ascii.ascii) : bool :=
  let n := Ascii.nat_of_ascii c in
  Nat.eqb n 9 || Nat.eqb n 10 || Nat.eqb n 13.

Definition rejected_piece (piece : string) : bool :=
  existsb control_character (String.list_ascii_of_string piece).

(** [put_pieces done piece text]: [done] is in the paragraph, [piece] is
    being collected and [text] is still to come.  The result is what is in the
    paragraph when a piece is rejected, [None] when all of the text is
    written. *)
Fixpoint put_pieces (done piece text : string) : option string :=
  match text with
  | EmptyString => if rejected_piece piece then Some done else None
  | String c rest =>
      if separator c then
        if rejected_piece piece then Some done
        else put_pieces (done +:+ piece +:+ String c EmptyString) EmptyString rest
      else put_pieces done (piece +:+ String c EmptyString) rest
  end.

Definition plain_docx (text : string) : option DocxError :=
  option_map
    (mkDocxError "All strings must be XML compatible: Unicode or ASCII, no NULL bytes or control characters")
    (put_pieces "" "" text).

Definition click (b : Button) (answer : Completion) : Env :=
  click_with plain_docx b answer.

(** The document library takes a text: the text is empty, or putting it into
    a paragraph raises nothing. *)
Definition library_takes (rejects : string -> option DocxError) (text : string) : Prop :=
  (if String.eqb text "" then None else rejects text) = None.

(** The state machine of the workflow, as a function: the step after an
    execution caused by a click on [b] at step [k], for a template of [n]
    sections.  The script is compared with it below. *)
Definition next_step (n : Z) (b : option Button) (k : Z) : Z :=
  match b with
  | Some StartGenerating => if k =? -1 then 0 else k
  | Some PreviousSection => if (0 <? k) && (k <? n) then k - 1 else k
  | Some NextSection => if (0 <=? k) && (k <? n - 1) then k + 1 else k
  | Some Complete => if k =? n - 1 then n else k
  | _ => k
  end.

(** ** What one execution does to the session state, in closed form *)

(** The functions below are not part of the script: they say, without the
    script monad, what state an execution leaves behind.  The script is proved
    to agree with them on well-formed states. *)
Section Effects.

Variable SECTIONS_TEMPLATE : list string.
Variable env : Env.

(** The steps the workflow uses, and one content slot per section. *)
Definition well_formed (s : SessionState) : Prop :=
  -1 <= step s <= len SECTIONS_TEMPLATE /\
  length (section_contents s) = length SECTIONS_TEMPLATE.

(** After [input_ui]: the profile fields hold what the form reports. *)
Definition typed (s : SessionState) : SessionState :=
  set_profile
    {| p_business_name := st_text_input (in_business_name env) (business_name s);
       p_industry := st_text_input (in_industry env) (industry s);
       p_core_product := st_text_input (in_core_product env) (core_product s);
       p_problem_solved := st_text_input (in_problem_solved env) (problem_solved s);
       p_additional_info := st_text_input (in_additional_info env) (additional_info s) |}
    s.

(** What [generate_section_content] returns for the section [name]: the
    text of the answer if the call succeeded and the document took the section
    name and the text, the empty string otherwise. *)
Definition generation_text (name system_prompt model : string) (s : SessionState)
  : string :=
  match chat_completion env (mkRequest model system_prompt (user_input name s)) with
  | Content c =>
      match docx_error env name, docx_error env c with
      | None, None => c
      | _, _ => ""
      end
  | ApiError _ => ""
  end.

(** The blocks it appends to the document. *)
Definition generation_blocks (name system_prompt model : string) (s : SessionState)
  : list Block :=
  match chat_completion env (mkRequest model system_prompt (user_input name s)) with
  | Content c =>
      match docx_error env name with
      | Some e => [Paragraph (written e)]
      | None =>
          match docx_error env c with
          | Some e => [Heading name 1; Paragraph (written e)]
          | None => [Heading name 1; Paragraph c]
          end
      end
  | ApiError _ => []
  end.

(** The messages it shows. *)
Definition generation_messages (name system_prompt model : string) (s : SessionState)
  : list UiOut :=
  match chat_completion env (mkRequest model system_prompt (user_input name s)) with
  | Content c =>
      match docx_error env name with
      | Some e => [Error ("An error occurred: " +:+ message e)]
      | None =>
          match docx_error env c with
          | Some e => [Error ("An error occurred: " +:+ message e)]
          | None => []
          end
      end
  | ApiError e => [Error ("An error occurred: " +:+ e)]
  end.

(** After the generation for the section at the current step. *)
Definition generated (system_prompt model : string) (s : SessionState) : SessionState :=
  match SECTIONS_TEMPLATE !! Z.to_nat (step s) with
  | Some name =>
      set_section_contents
        (<[Z.to_nat (step s) := generation_text name system_prompt model s]>
           (section_contents s))
        (set_doc (doc s ++ generation_blocks name system_prompt model s) s)
  | None => s
  end.

(** The messages shown by that generation. *)
Definition generation_errors (system_prompt model : string) (s : SessionState)
  : list UiOut :=
  match SECTIONS_TEMPLATE !! Z.to_nat (step s) with
  | Some name => generation_messages name system_prompt model s
  | None => []
  end.

(** The state in which a generation starts, if this execution generates: the
    step already points at the section to generate. *)
Definition generation_target (s : SessionState) : option SessionState :=
  match clicked env with
  | Some StartGenerating => if step s =? -1 then Some (set_step 0 s) else None
  | Some NextSection =>
      if (0 <=? step s) && (step s <? len SECTIONS_TEMPLATE - 1)
      then Some (set_step (step s + 1) s) else None
  | _ => None
  end.

(** After [handle_section_generation]. *)
Definition handle_effect (system_prompt model : string) (s : SessionState)
  : SessionState :=
  let n := len SECTIONS_TEMPLATE in
  match generation_target s with
  | Some s1 => generated system_prompt model s1
  | None =>
      match clicked env with
      | Some PreviousSection =>
          if (0 <? step s) && (step s <? n) then set_step (step s - 1) s else s
      | Some Complete => if step s =? n - 1 then set_step n s else s
      | _ => s
      end
  end.

(** How [handle_section_generation] ends. *)
Definition handle_outcome (s : SessionState) : Outcome unit :=
  match generation_target s with
  | Some _ => Raises RerunException
  | None =>
      if len SECTIONS_TEMPLATE <=? step s then Raises StreamlitAPIException
      else Returns tt
  end.

(** The error messages it shows. *)
Definition handle_errors (system_prompt model : string) (s : SessionState)
  : list UiOut :=
  match generation_target s with
  | Some s1 => generation_errors system_prompt model s1
  | None => []
  end.

(** What is stored after a whole execution. *)
Definition executed (s : SessionState) : SessionState :=
  handle_effect create_system_prompt (model_choice env) (typed s).

End Effects.

(** ** Observations used in the statements *)

(** No content ahead of the position [k]. *)
Definition empty_beyond (k : Z) (s : SessionState) : Prop :=
  forall i x, k < i -> py_getitem (section_contents s) i = Some x -> x = "".

(** The files offered for download on a page. *)
Fixpoint downloads (p : list UiOut) : list (Document * string) :=
  match p with
  | DownloadButton d f :: p' => (d, f) :: downloads p'
  | _ :: p' => downloads p'
  | [] => []
  end.

(** The state a lifetime ends in. *)
Definition after (T : list string) (cs : list Call) : option SessionState :=
  fst (lifetime T cs None (-1)).

Definition state_after (T : list string) (cs : list Call) : SessionState :=
  default (fresh_session T) (after T cs).

(** The stored state, if any, is well formed, the recorded height is at least
    its step, and no slot beyond the height holds content. *)
Definition sound (T : list string) (store : option SessionState) (high : Z) : Prop :=
  -1 <= high /\
  forall s, store = Some s -> well_formed T s /\ step s <= high /\ empty_beyond high s.

(** The stored state, if any, is well formed and its document has at most
    one entry per section up to the current one. *)
Definition tidy (T : list string) (store : option SessionState) : Prop :=
  forall s, store = Some s -> well_formed T s /\ entry_count (doc s) <= step s + 1.

(** An execution on [s] generates the section [name]: Start Generating before
    the first section, or Next Section before the last one. *)
Definition generates (T : list string) (env : Env) (s : SessionState) (name : string)
  : Prop :=
  ((clicked env = Some StartGenerating /\ step s = -1) \/
   (clicked env = Some NextSection /\ 0 <= step s < len T - 1)) /\
  T !! Z.to_nat (step s + 1) = Some name.

(** The request that execution sends. *)
Definition request_for (env : Env) (s : SessionState) (name : string) : ChatRequest :=
  mkRequest (model_choice env) create_system_prompt (user_input name (typed env s)).

(** ** Concrete lifetimes *)

(** The execution Streamlit starts by itself after [st.rerun()]: no click. *)
Definition rerun : Env :=
  {| api_key := "sk-test";
     model_choice := "gpt-3.5-turbo";
     in_business_name := None;
     in_industry := None;
     in_core_product := None;
     in_problem_solved := None;
     in_additional_info := None;
     clicked := None;
     chat_completion := fun _ => ApiError "no call expected";
     docx_rejects := plain_docx |}.

Definition ABC : list string := ["A"; "B"; "C"].

(** Start, Next, Previous, Next (section B generated a second time), Next. *)
Definition regenerate_B (rejects : string -> option DocxError)
           (tA tB tB2 tC : string) : list Call :=
  [ Whole (click_with rejects StartGenerating (Content tA)); Whole rerun;
    Whole (click_with rejects NextSection (Content tB)); Whole rerun;
    Whole (click_with rejects PreviousSection (Content ""));
    Whole (click_with rejects NextSection (Content tB2)); Whole rerun;
    Whole (click_with rejects NextSection (Content tC)); Whole rerun ].

(** Start, Next, then back to the first section. *)
Definition back_to_first : list Call :=
  [ Whole (click StartGenerating (Content "textA")); Whole rerun;
    Whole (click NextSection (Content "textB")); Whole rerun;
    Whole (click PreviousSection (Content "")) ].

(** All nine sections generated in order, then Complete. *)
Definition straight_through : list Call :=
  [ Whole (click StartGenerating (Content "text")); Whole rerun ] ++
  concat (replicate 8 [ Whole (click NextSection (Content "text")); Whole rerun ]) ++
  [ Whole (click Complete (Content "")) ].

(** The second section generated twice, then back to the first section. *)
Definition second_section_twice : list Call :=
  [ Whole (click StartGenerating (Content "textA")); Whole rerun;
    Whole (click NextSection (Content "textB")); Whole rerun;
    Whole (click PreviousSection (Content ""));
    Whole (click NextSection (Content "textB2")); Whole rerun;
    Whole (click PreviousSection (Content "")) ].

(** The same, followed by a Next Section whose generation fails. *)
Definition fail_after_regenerating : list Call :=
  second_section_twice ++ [ Whole (click NextSection (ApiError "timeout")) ].

(** The first section generated, nothing else. *)
Definition first_section_only : list Call :=
  [ Whole (click StartGenerating (Content "textA")); Whole rerun ].

(** ** Further observations *)

(** The same execution with another language model behind it. *)
Definition with_chat_completion (f : ChatRequest -> Completion) (env : Env) : Env :=
  {| api_key := api_key env;
     model_choice := model_choice env;
     in_business_name := in_business_name env;
     in_industry := in_industry env;
     in_core_product := in_core_product env;
     in_problem_solved := in_problem_solved env;
     in_additional_info := in_additional_info env;
     clicked := clicked env;
     chat_completion := f;
     docx_rejects := docx_rejects env |}.

(** The section an execution on [s] generates, if any. *)
Definition generated_section (T : list string) (env : Env) (s : SessionState)
  : option string :=
  match generation_target T env (typed env s) with
  | Some s1 => T !! Z.to_nat (step s1)
  | None => None
  end.

(** The entry that execution adds to the document: the name of the generated
    section with the paragraph the document gets for it, which is the
    returned text, or what was written of it when the document library
    rejected it.  No entry is added when nothing is generated, when the call
    fails and when the library rejects the name of the section. *)
Definition added_entry (T : list string) (env : Env) (s : SessionState)
  : option (string * string) :=
  match generated_section T env s with
  | Some name =>
      match chat_completion env (request_for env s name) with
      | Content c =>
          match docx_error env name with
          | None =>
              Some (name, match docx_error env c with
                          | None => c
                          | Some e => written e
                          end)
          | Some _ => None
          end
      | ApiError _ => None
      end
  | None => None
  end.

(** The entries added in the course of a lifetime, in the order of its calls:
    the log of what was generated. *)
Fixpoint generation_log (T : list string) (cs : list Call) (store : option SessionState)
  : list (string * string) :=
  match cs with
  | [] => []
  | c :: cs' =>
      match c with
      | Whole env =>
          if truthy (api_key env) && truthy (model_choice env)
          then option_list (added_entry T env (init_session_state T store))
          else []
      | CompletionOnly _ => []
      end ++ generation_log T cs' (perform T c store)
  end.

(** A text with a form feed in its second line. *)
Definition form_feed : string := String (Ascii.ascii_of_nat 12) EmptyString.

Definition draft_with_form_feed : string :=
  "draft" +:+ nl +:+ "page" +:+ form_feed +:+ "break".

(** Three sections generated in order; the text of the second one is the one
    with the form feed. *)
Definition rejected_second_section : list Call :=
  [ Whole (click StartGenerating (Content "textA")); Whole rerun;
    Whole (click NextSection (Content draft_with_form_feed)); Whole rerun;
    Whole (click NextSection (Content "textC")); Whole rerun ].

(** The buttons rendered on a page, in order. *)
Fixpoint buttons (p : list UiOut) : list Button :=
  match p with
  | ButtonShown b :: p' => b :: buttons p'
  | _ :: p' => buttons p'
  | [] => []
  end.


(** The document starts with the title, every entry is headed by a template
    name, and the document does not end with a heading that waits for its
    paragraph. *)
Definition orderly (T : list string) (s : SessionState) : Prop :=
  (exists rest, doc s = Heading "Business Plan" 0 :: rest) /\
  Forall (fun e => fst e ∈ T) (entries (doc s)) /\
  forall t, entries (doc s ++ [Paragraph t]) = entries (doc s).

(** Whole executions only. *)
Definition is_whole (c : Call) : bool :=
  match c with
  | Whole _ => true
  | CompletionOnly _ => false
  end.

(** * Properties *)

(** ** Arithmetic of the progress fraction *)

Lemma fraction_in_unit_interval (a d : Z) :
  0 <= a <= d -> 0 < d ->
  Qle_bool 0 (inject_Z a / inject_Z d) && Qle_bool (inject_Z a / inject_Z d) 1 = true.
Proof.
  intros Ha Hd.
  assert (Hq : (0 < inject_Z d)%Q) by (unfold Qlt; cbn; lia).
  apply andb_true_intro; split; apply Qle_bool_iff.
  - apply Qle_shift_div_l; [exact Hq|].
    rewrite Qmult_0_l. unfold Qle; cbn; lia.
  - apply Qle_shift_div_r; [exact Hq|].
    rewrite Qmult_1_l. unfold Qle; cbn; lia.
Qed.

Lemma fraction_above_one (a d : Z) :
  0 < d < a -> (1 < inject_Z a / inject_Z d)%Q.
Proof.
  intros H.
  assert (Hq : (0 < inject_Z d)%Q) by (unfold Qlt; cbn; lia).
  apply Qlt_shift_div_l; [exact Hq|].
  rewrite Qmult_1_l. unfold Qlt; cbn; lia.
Qed.

Lemma fraction_rejected (a d : Z) :
  0 < d < a ->
  Qle_bool 0 (inject_Z a / inject_Z d) && Qle_bool (inject_Z a / inject_Z d) 1 = false.
Proof.
  intros H. apply andb_false_intro2, not_true_is_false. intros Hle.
  apply Qle_bool_iff in Hle.
  exact (Qlt_not_le _ _ (fraction_above_one a d H) Hle).
Qed.

(** ** Python subscripts *)

Lemma py_getitem_in_range {A} (l : list A) (i : Z) :
  0 <= i < len l -> exists x, py_getitem l i = Some x /\ l !! Z.to_nat i = Some x.
Proof.
  intros H. unfold py_getitem, len in *.
  destruct (Z.leb_spec 0 i); [|lia].
  destruct (lookup_lt_is_Some_2 l (Z.to_nat i)) as [x Hx]; [lia|].
  exists x. auto.
Qed.

Lemma py_getitem_nonneg {A} (l : list A) (i : Z) :
  0 <= i -> py_getitem l i = l !! Z.to_nat i.
Proof. intros H. unfold py_getitem. destruct (Z.leb_spec 0 i); [reflexivity|lia]. Qed.

Lemma py_getitem_beyond {A} (l : list A) (i : Z) :
  len l <= i -> py_getitem l i = None.
Proof.
  intros H. unfold py_getitem, len in *.
  destruct (Z.leb_spec 0 i); [|lia].
  apply lookup_ge_None. lia.
Qed.

Lemma py_setitem_in_range {A} (l : list A) (i : Z) (v : A) :
  0 <= i < len l -> py_setitem l i v = Some (<[Z.to_nat i := v]> l).
Proof.
  intros H. unfold py_setitem.
  destruct (Z.leb_spec 0 i); [|lia].
  destruct (Z.ltb_spec i (len l)); [reflexivity|lia].
Qed.

(** ** Equations of the script monad *)

Lemma bind_ret {A B} (a : A) (k : A -> Script B) s o : bind (ret a) k s o = k a s o.
Proof. reflexivity. Qed.

Lemma bind_get {B} (k : SessionState -> Script B) s o : bind get k s o = k s s o.
Proof. reflexivity. Qed.

Lemma bind_modify {B} f (k : unit -> Script B) s o :
  bind (modify f) k s o = k tt (f s) o.
Proof. reflexivity. Qed.

Lemma bind_render {B} w (k : unit -> Script B) s o :
  bind (render w) k s o = k tt s (o ++ [w]).
Proof. reflexivity. Qed.

Lemma bind_raise {A B} e (k : A -> Script B) s o :
  bind (raise e) k s o = mkRun (Raises e) s o.
Proof. reflexivity. Qed.

Lemma bind_assoc {A B C} (c : Script A) (f : A -> Script B) (k : B -> Script C) s o :
  bind (bind c f) k s o = bind c (fun a => bind (f a) k) s o.
Proof. unfold bind. destruct (outcome (c s o)); reflexivity. Qed.

Lemma bind_button {B} env b (k : bool -> Script B) s o :
  bind (st_button env b) k s o =
    k (bool_decide (clicked env = Some b)) s (o ++ [ButtonShown b]).
Proof. reflexivity. Qed.

Lemma bind_getitem {A B} (l : list A) i x (k : A -> Script B) s o :
  py_getitem l i = Some x -> bind (getitem l i) k s o = k x s o.
Proof. intros H. unfold getitem. rewrite H. reflexivity. Qed.

Lemma bind_getitem_none {A B} (l : list A) i (k : A -> Script B) s o :
  py_getitem l i = None -> bind (getitem l i) k s o = mkRun (Raises IndexError) s o.
Proof. intros H. unfold getitem. rewrite H. reflexivity. Qed.

Lemma bind_returns {A B} (c : Script A) (k : A -> Script B) s o a s' o' :
  c s o = mkRun (Returns a) s' o' -> bind c k s o = k a s' o'.
Proof. intros H. unfold bind. rewrite H. reflexivity. Qed.

Lemma bind_raises {A B} (c : Script A) (k : A -> Script B) s o e s' o' :
  c s o = mkRun (Raises e) s' o' -> bind c k s o = mkRun (Raises e) s' o'.
Proof. intros H. unfold bind. rewrite H. reflexivity. Qed.

Lemma bind_store {B} i v l (k : unit -> Script B) s o :
  py_setitem (section_contents s) i v = Some l ->
  bind (store_section_content i v) k s o = k tt (set_section_contents l s) o.
Proof.
  intros H. unfold store_section_content. rewrite bind_assoc, bind_get. cbv beta.
  rewrite H. reflexivity.
Qed.

Lemma set_doc_unchanged s : set_doc (doc s ++ []) s = s.
Proof. destruct s. unfold set_doc. cbn. rewrite app_nil_r. reflexivity. Qed.

Lemma generate_section_content_run env name sp m s o :
  generate_section_content env name sp m s o =
    mkRun (Returns (generation_text env name sp m s))
          (set_doc (doc s ++ generation_blocks env name sp m s) s)
          (o ++ generation_messages env name sp m s).
Proof.
  unfold generate_section_content, generation_text, generation_blocks,
    generation_messages.
  rewrite bind_get. cbv beta.
  destruct (chat_completion env _) as [c|e].
  - unfold try_except, add_section_to_document, doc_add_heading, doc_add_paragraph.
    destruct (docx_error env name) as [msg|];
      [|destruct (docx_error env c) as [msg|]]; cbn.
    + reflexivity.
    + unfold set_doc, add_paragraph, add_heading. cbn. rewrite <- app_assoc.
      reflexivity.
    + unfold set_doc, add_paragraph, add_heading. cbn.
      rewrite <- app_assoc, app_nil_r. reflexivity.
  - cbn. rewrite set_doc_unchanged. reflexivity.
Qed.

Lemma bind_generate {B} env name sp m (k : string -> Script B) s o :
  bind (generate_section_content env name sp m) k s o =
    k (generation_text env name sp m s)
      (set_doc (doc s ++ generation_blocks env name sp m s) s)
      (o ++ generation_messages env name sp m s).
Proof.
  unfold bind at 1. rewrite generate_section_content_run. reflexivity.
Qed.

(** The shapes of what a generation appends. *)
Lemma generation_shapes env name sp m s :
  generation_blocks env name sp m s
    = [Heading name 1; Paragraph (generation_text env name sp m s)] \/
  (generation_text env name sp m s = "" /\
   (generation_blocks env name sp m s = [] \/
    exists w, generation_blocks env name sp m s = [Paragraph w] \/
              generation_blocks env name sp m s = [Heading name 1; Paragraph w])).
Proof.
  unfold generation_blocks, generation_text.
  destruct (chat_completion env _) as [c|e]; [|auto].
  destruct (docx_error env name); [eauto 8|].
  destruct (docx_error env c); eauto 8.
Qed.

(** The request is built from the profile alone. *)
Lemma user_input_profile name s s' :
  profile s = profile s' -> user_input name s = user_input name s'.
Proof.
  unfold profile, user_input. intros H. injection H as -> -> -> -> ->. reflexivity.
Qed.

Lemma typed_step env s : step (typed env s) = step s.
Proof. reflexivity. Qed.

Lemma typed_doc env s : doc (typed env s) = doc s.
Proof. reflexivity. Qed.

Lemma typed_section_contents env s : section_contents (typed env s) = section_contents s.
Proof. reflexivity. Qed.

Ltac untyped := rewrite ?typed_step, ?typed_doc, ?typed_section_contents in *.

Ltac fields :=
  cbn [step doc section_contents business_name industry core_product
       problem_solved additional_info set_step set_doc set_section_contents
       set_profile profile session outcome shown] in *.

Ltac script :=
  repeat (cbv beta iota; fields;
          first [ rewrite bind_get | rewrite bind_modify | rewrite bind_render
                | rewrite bind_ret | rewrite bind_raise | rewrite bind_button
                | rewrite bind_assoc
                | rewrite bool_decide_eq_true_2 by congruence
                | rewrite bool_decide_eq_false_2 by congruence ]);
  cbv beta iota; fields.

Ltac split_tests :=
  repeat match goal with
    | |- context [Z.eqb ?a ?b] => destruct (Z.eqb_spec a b); try lia
    | |- context [Z.leb ?a ?b] => destruct (Z.leb_spec a b); try lia
    | |- context [Z.ltb ?a ?b] => destruct (Z.ltb_spec a b); try lia
    end; cbn [andb orb negb].

(** ** The functions of the script, one by one *)

Section Functions.

Variable T : list string.
Variable env : Env.

Lemma input_ui_run s o :
  exists o', input_ui env s o = mkRun (Returns tt) (typed env s) o'.
Proof.
  unfold input_ui, typed. script.
  destruct (bool_decide _); eexists; reflexivity.
Qed.

Lemma completion_ui_run s o :
  completion_ui T env s o =
    if len T <=? step s then
      mkRun (Returns tt)
        (if bool_decide (clicked env = Some StartOver) then set_step (-1) s else s)
        (o ++ [Success "Business plan is complete!";
               DownloadButton (doc s) "business_plan.docx";
               ButtonShown StartOver])
    else mkRun (Returns tt) s o.
Proof.
  unfold completion_ui. script.
  destruct (len T <=? step s); [|reflexivity]. script.
  rewrite <- !app_assoc. cbn [app].
  destruct (bool_decide _); reflexivity.
Qed.

(** The generation and what follows it, from the state in which the step
    already points at the section to generate. *)
Lemma generation_run sp m s o :
  0 <= step s < len T -> length (section_contents s) = length T ->
  (section <- getitem T (step s) ;;
   content <- generate_section_content env section sp m ;;
   s0 <- get ;;
   store_section_content (step s0) content ;;
   st_rerun) s o =
  mkRun (Raises RerunException) (generated T env sp m s)
        (o ++ generation_errors T env sp m s).
Proof.
  intros Hs Hlen.
  destruct (py_getitem_in_range T (step s) Hs) as (name & Hget & Hlook).
  rewrite (bind_getitem _ _ _ _ _ _ Hget). cbv beta.
  rewrite bind_generate. unfold generated, generation_errors. rewrite Hlook.
  assert (Hset : forall v, py_setitem (section_contents s) (step s) v
                         = Some (<[Z.to_nat (step s) := v]> (section_contents s))).
  { intros v. apply py_setitem_in_range. unfold len in *. lia. }
  script. erewrite bind_store by (fields; apply Hset). reflexivity.
Qed.

Lemma first_generation_run sp m s o :
  step s = 0 -> 1 <= len T -> length (section_contents s) = length T ->
  (section <- getitem T 0 ;;
   content <- generate_section_content env section sp m ;;
   store_section_content 0 content ;;
   st_rerun) s o =
  mkRun (Raises RerunException) (generated T env sp m s)
        (o ++ generation_errors T env sp m s).
Proof.
  intros Hs HN Hlen.
  destruct (py_getitem_in_range T 0 ltac:(lia)) as (name & Hget & Hlook).
  rewrite (bind_getitem _ _ _ _ _ _ Hget). cbv beta.
  rewrite bind_generate. unfold generated, generation_errors. rewrite Hs, Hlook.
  assert (Hset : forall v, py_setitem (section_contents s) 0 v
                         = Some (<[Z.to_nat 0 := v]> (section_contents s))).
  { intros v. apply py_setitem_in_range. unfold len in *. lia. }
  script. erewrite bind_store by (fields; apply Hset). reflexivity.
Qed.

Lemma navigation_buttons_run sp m s o :
  0 <= step s < len T -> length (section_contents s) = length T ->
  exists o',
    navigation_buttons T env sp m s o =
      mkRun (handle_outcome T env s) (handle_effect T env sp m s)
            (o' ++ handle_errors T env sp m s).
Proof.
  intros Hs Hlen.
  unfold navigation_buttons, handle_effect, handle_outcome, handle_errors,
    generation_target.
  script.
  destruct (clicked env) as [b|] eqn:Hc; [destruct b|].
  all: split_tests; script; split_tests; script;
    try (eexists; rewrite app_nil_r; reflexivity).
  all: eexists;
    apply (generation_run sp m (set_step (step s + 1) s)); fields; lia.
Qed.

Lemma section_content_ui_raises sp m s o :
  2 <= len T -> len T <= step s ->
  section_content_ui T env sp m s o = mkRun (Raises StreamlitAPIException) s o.
Proof.
  intros HN Hs.
  unfold section_content_ui, calculate_progress. script. split_tests. script. split_tests. script.
  unfold st_progress.
  rewrite (fraction_rejected (Z.max 0 (step s)) (len T - 1)) by lia.
  reflexivity.
Qed.

Lemma section_content_ui_run sp m s o :
  2 <= len T -> 0 <= step s < len T -> length (section_contents s) = length T ->
  exists o',
    section_content_ui T env sp m s o = navigation_buttons T env sp m s (o ++ o').
Proof.
  intros HN Hs Hlen.
  unfold section_content_ui, calculate_progress. script. split_tests. script. split_tests. script.
  unfold st_progress.
  rewrite (fraction_in_unit_interval (Z.max 0 (step s)) (len T - 1)) by lia.
  script.
  destruct (py_getitem_in_range T (step s) Hs) as (name & Hget & _).
  destruct (py_getitem_in_range (section_contents s) (step s)
              ltac:(unfold len in *; lia)) as (value & Hval & _).
  rewrite (bind_getitem _ _ _ _ _ _ Hget). cbv beta.
  rewrite (bind_getitem _ _ _ _ _ _ Hval). script.
  rewrite <- !app_assoc. eexists. reflexivity.
Qed.

Lemma handle_section_generation_run sp m s o :
  2 <= len T -> well_formed T s ->
  exists o',
    handle_section_generation T env sp m s o =
      mkRun (handle_outcome T env s) (handle_effect T env sp m s)
            (o' ++ handle_errors T env sp m s).
Proof.
  intros HN [Hs Hlen].
  unfold handle_section_generation. script.
  destruct (Z.eqb_spec (step s) (-1)) as [Hm|Hm].
  - unfold handle_effect, handle_outcome, handle_errors, generation_target.
    rewrite Hm. script.
    destruct (clicked env) as [b|] eqn:Hc; [destruct b|].
    all: script; split_tests; try (eexists; rewrite app_nil_r; reflexivity).
    eexists. apply (first_generation_run sp m (set_step 0 s)); fields; lia.
  - destruct (Z.ltb_spec (step s) (len T)) as [Hlt|Hge].
    + destruct (section_content_ui_run sp m s o HN ltac:(lia) Hlen) as [o1 ->].
      apply navigation_buttons_run; [lia|exact Hlen].
    + rewrite section_content_ui_raises by lia.
      unfold handle_effect, handle_outcome, handle_errors, generation_target.
      exists o.
      destruct (clicked env) as [b|] eqn:Hc; [destruct b|].
      all: split_tests; rewrite app_nil_r; reflexivity.
Qed.

End Functions.

(** ** The closed forms *)

Section EffectFacts.

Variable T : list string.
Variable env : Env.
Variables sp m : string.

Lemma typed_well_formed s : well_formed T s -> well_formed T (typed env s).
Proof. intros H. exact H. Qed.

Lemma generated_step s : step (generated T env sp m s) = step s.
Proof. unfold generated. destruct (T !! _); reflexivity. Qed.

Lemma generated_length s :
  length (section_contents (generated T env sp m s)) = length (section_contents s).
Proof.
  unfold generated. destruct (T !! _); [|reflexivity].
  fields. apply length_insert.
Qed.

Lemma generated_profile s : profile (generated T env sp m s) = profile s.
Proof. unfold generated. destruct (T !! _); reflexivity. Qed.

(** Only the slot at the current step is written. *)
Lemma generated_other_slots s (i : nat) :
  i <> Z.to_nat (step s) ->
  section_contents (generated T env sp m s) !! i = section_contents s !! i.
Proof.
  intros Hi. unfold generated. destruct (T !! _); [|reflexivity].
  fields. apply list_lookup_insert_ne. congruence.
Qed.

Lemma generation_target_step s s1 :
  2 <= len T ->
  generation_target T env s = Some s1 ->
  s1 = set_step (step s + 1) s /\ -1 <= step s < len T - 1.
Proof.
  intros HN. unfold generation_target.
  destruct (clicked env) as [[]|]; try discriminate; split_tests; try discriminate.
  all: intros [= <-]; split; [|lia].
  - replace (step s + 1) with 0 by lia. reflexivity.
  - reflexivity.
Qed.

Lemma handle_effect_step s :
  2 <= len T -> well_formed T s ->
  step (handle_effect T env sp m s) = next_step (len T) (clicked env) (step s).
Proof.
  intros HN [Hs _]. unfold handle_effect, generation_target, next_step.
  destruct (clicked env) as [[]|]; split_tests; fields; rewrite ?generated_step; fields;
    try reflexivity; lia.
Qed.

Lemma next_step_range n b k : 2 <= n -> -1 <= k <= n -> -1 <= next_step n b k <= n.
Proof. intros Hn Hk. unfold next_step. destruct b as [[]|]; split_tests; lia. Qed.

Lemma handle_effect_length s :
  length (section_contents (handle_effect T env sp m s)) = length (section_contents s).
Proof.
  unfold handle_effect, generation_target.
  destruct (clicked env) as [[]|]; split_tests; rewrite ?generated_length; reflexivity.
Qed.

Lemma handle_effect_well_formed s :
  2 <= len T -> well_formed T s -> well_formed T (handle_effect T env sp m s).
Proof.
  intros HN H. split.
  - rewrite handle_effect_step by assumption.
    apply next_step_range; [exact HN|apply H].
  - rewrite handle_effect_length. apply H.
Qed.

Lemma handle_effect_profile s : profile (handle_effect T env sp m s) = profile s.
Proof.
  unfold handle_effect, generation_target.
  destruct (clicked env) as [[]|]; split_tests; rewrite ?generated_profile; reflexivity.
Qed.

(** Without a generation the content slots and the document stay. *)
Lemma handle_effect_idle s :
  generation_target T env s = None ->
  section_contents (handle_effect T env sp m s) = section_contents s /\
  doc (handle_effect T env sp m s) = doc s.
Proof.
  unfold handle_effect. intros ->.
  destruct (clicked env) as [[]|]; split_tests; split; reflexivity.
Qed.

(** When [handle_section_generation] returns, [completion_ui] has nothing to
    change: the step is below the end, or the click was on Complete. *)
Lemma completion_after_handle s o :
  handle_outcome T env s = Returns tt ->
  exists o', completion_ui T env (handle_effect T env sp m s) o =
             mkRun (Returns tt) (handle_effect T env sp m s) (o ++ o').
Proof.
  unfold handle_outcome, handle_effect. rewrite completion_ui_run.
  destruct (generation_target T env s); [discriminate|].
  destruct (Z.leb_spec (len T) (step s)); [discriminate|]. intros _.
  destruct (clicked env) as [[]|] eqn:Hc; split_tests; fields; split_tests.
  all: try (exists []; rewrite app_nil_r; reflexivity).
  all: cbn [andb] in *; fields; try lia.
  rewrite bool_decide_eq_false_2 by congruence. eexists. reflexivity.
Qed.

End EffectFacts.

(** ** One execution of the whole script *)

Section Execution.

Variable T : list string.
Hypothesis at_least_two : 2 <= len T.
Variable env : Env.

Lemma fresh_session_well_formed : well_formed T (fresh_session T).
Proof.
  split; cbn; [unfold len; lia|]. apply length_replicate.
Qed.

Lemma main_body_run s o :
  well_formed T s ->
  exists o1 o2,
    main_body T env s o =
      mkRun (handle_outcome T env (typed env s))
            (executed T env s)
            (o1 ++ handle_errors T env create_system_prompt (model_choice env) (typed env s)
                ++ o2).
Proof.
  intros Hwf. unfold main_body, executed.
  destruct (input_ui_run env s o) as [o0 Hin].
  rewrite (bind_returns _ _ _ _ _ _ _ Hin).
  destruct (handle_section_generation_run T env create_system_prompt (model_choice env)
              (typed env s) o0 at_least_two (typed_well_formed T env s Hwf)) as [o1 Hh].
  destruct (handle_outcome T env (typed env s)) as [[]|e] eqn:Hout.
  - rewrite (bind_returns _ _ _ _ _ _ _ Hh).
    destruct (completion_after_handle T env create_system_prompt (model_choice env)
                (typed env s)
                (o1 ++ handle_errors T env create_system_prompt (model_choice env)
                         (typed env s)) Hout) as [o2 ->].
    exists o1, o2. rewrite <- app_assoc. reflexivity.
  - rewrite (bind_raises _ _ _ _ _ _ _ Hh).
    exists o1, []. rewrite app_nil_r. reflexivity.
Qed.

Lemma main_stored s :
  configured env -> well_formed T s -> stored (main T env (Some s)) = Some (executed T env s).
Proof.
  intros Hc Hwf. unfold main, stored. rewrite Hc. cbn [fst init_session_state].
  destruct (main_body_run s [] Hwf) as (o1 & o2 & ->). reflexivity.
Qed.

Lemma main_ended s :
  configured env -> well_formed T s ->
  ended (main T env (Some s)) = handle_outcome T env (typed env s).
Proof.
  intros Hc Hwf. unfold main, ended. rewrite Hc. cbn [fst snd init_session_state].
  destruct (main_body_run s [] Hwf) as (o1 & o2 & ->). reflexivity.
Qed.

Lemma main_page s :
  configured env -> well_formed T s ->
  exists o1 o2,
    page (main T env (Some s)) =
      o1 ++ handle_errors T env create_system_prompt (model_choice env) (typed env s) ++ o2.
Proof.
  intros Hc Hwf. unfold main, page. rewrite Hc. cbn [fst snd init_session_state].
  destruct (main_body_run s [] Hwf) as (o1 & o2 & ->). eauto.
Qed.

Lemma executed_well_formed s : well_formed T s -> well_formed T (executed T env s).
Proof.
  intros H. apply handle_effect_well_formed; [exact at_least_two|].
  apply typed_well_formed, H.
Qed.

End Execution.

(** ** The document *)

Lemma entries_section_appended (d : Document) (name text : string) :
  entries (d ++ [Heading name 1; Paragraph text]) = entries d ++ [(name, text)].
Proof.
  induction d as [|b d IH]; [reflexivity|].
  destruct b as [h lvl|p]; [|exact IH].
  destruct d as [|b' d'].
  - destruct lvl as [|[]|]; reflexivity.
  - destruct b' as [h' lvl'|p'].
    + transitivity (entries ((Heading h' lvl' :: d') ++ [Heading name 1; Paragraph text])).
      * destruct lvl as [|[]|]; reflexivity.
      * rewrite IH. destruct lvl as [|[]|]; reflexivity.
    + destruct lvl as [|[q|q|]|]; try exact IH.
      cbn [app entries] in *. rewrite IH. reflexivity.
Qed.

Lemma entry_count_section_appended (d : Document) (name text : string) :
  entry_count (d ++ [Heading name 1; Paragraph text]) = entry_count d + 1.
Proof.
  unfold entry_count, len. rewrite entries_section_appended, length_app. cbn. lia.
Qed.

(** One more block leaves the entries as they are or completes one entry. *)
Lemma entries_block_appended (d : Document) (b : Block) :
  entries (d ++ [b]) = entries d \/ exists e, entries (d ++ [b]) = entries d ++ [e].
Proof.
  induction d as [|x d IH].
  - left. destruct b as [h [|[]|]|p]; reflexivity.
  - destruct x as [h lvl|p]; [|exact IH].
    destruct d as [|y d'].
    + destruct lvl as [|[]|]; destruct b as [h' [|[]|]|p']; cbn; eauto.
    + destruct y as [h' lvl'|p'].
      * destruct lvl as [|[]|]; exact IH.
      * destruct lvl as [|[q|q|]|]; try exact IH.
        cbn [app entries] in *. destruct IH as [->|[e ->]]; eauto.
Qed.

(** What a generation appends leaves the entries as they are or adds one. *)
Lemma entries_generation env name sp m s (d : Document) :
  entries (d ++ generation_blocks env name sp m s) = entries d \/
  exists e, entries (d ++ generation_blocks env name sp m s) = entries d ++ [e].
Proof.
  destruct (generation_shapes env name sp m s) as [->|[_ [->|[w [->| ->]]]]].
  - right. rewrite entries_section_appended. eauto.
  - left. rewrite app_nil_r. reflexivity.
  - apply entries_block_appended.
  - right. rewrite entries_section_appended. eauto.
Qed.

Lemma entry_count_generation env name sp m s (d : Document) :
  entry_count (d ++ generation_blocks env name sp m s) <= entry_count d + 1.
Proof.
  unfold entry_count, len.
  destruct (entries_generation env name sp m s d) as [->|[e ->]];
    rewrite ?length_app; cbn; lia.
Qed.

(** ** Lifetimes *)

Lemma empty_beyond_fresh T k : empty_beyond k (fresh_session T).
Proof.
  intros i x _. unfold py_getitem. cbn [section_contents fresh_session].
  destruct (0 <=? i); [|destruct (_ <=? i)]; try discriminate.
  all: intros H; apply lookup_replicate in H; exact (proj1 H).
Qed.

Section Lifetimes.

Variable T : list string.
Hypothesis at_least_two : 2 <= len T.

Lemma executed_slots_beyond env s (i : Z) :
  well_formed T s -> step (executed T env s) < i ->
  py_getitem (section_contents (executed T env s)) i = py_getitem (section_contents s) i.
Proof.
  intros Hwf Hi. unfold executed in *.
  destruct (generation_target T env (typed env s)) as [s1|] eqn:Hg.
  - destruct (generation_target_step T env _ _ at_least_two Hg) as [-> Hr].
    unfold handle_effect in *. rewrite Hg in *.
    rewrite generated_step in Hi. fields.
    rewrite !py_getitem_nonneg by lia.
    rewrite generated_other_slots; [reflexivity|]. fields. lia.
  - destruct (handle_effect_idle T env create_system_prompt (model_choice env) _ Hg) as [-> _].
    reflexivity.
Qed.

Lemma perform_whole env s :
  configured env -> well_formed T s ->
  perform T (Whole env) (Some s) = Some (executed T env s).
Proof. intros Hc Hwf. apply main_stored; assumption. Qed.

Lemma perform_first env :
  configured env ->
  perform T (Whole env) None = Some (executed T env (fresh_session T)).
Proof.
  intros Hc.
  rewrite <- (main_stored T at_least_two env (fresh_session T) Hc
                (fresh_session_well_formed T)).
  unfold perform, main. rewrite Hc. reflexivity.
Qed.

Lemma perform_unconfigured env store :
  ~ configured env -> perform T (Whole env) store = store.
Proof.
  unfold configured, perform, main. intros Hc.
  destruct (truthy (api_key env) && truthy (model_choice env)); [congruence|reflexivity].
Qed.

Lemma perform_completion env s :
  perform T (CompletionOnly env) (Some s) =
    Some (if (len T <=? step s) && bool_decide (clicked env = Some StartOver)
          then set_step (-1) s else s).
Proof.
  unfold perform. rewrite completion_ui_run.
  destruct (len T <=? step s); [|reflexivity].
  destruct (bool_decide _); reflexivity.
Qed.

Lemma configured_dec env : configured env \/ ~ configured env.
Proof.
  unfold configured.
  destruct (truthy (api_key env) && truthy (model_choice env)); [left|right]; congruence.
Qed.

(** What a call does to a store that holds nothing or a well-formed state:
    nothing, a whole execution (on the fresh state if nothing was stored), or
    the Start Over branch. *)
Lemma perform_cases c store :
  (forall s, store = Some s -> well_formed T s) ->
  perform T c store = store \/
  (exists env s0,
      c = Whole env /\ configured env /\ init_session_state T store = s0 /\
      perform T c store = Some (executed T env s0)) \/
  (exists env s, c = CompletionOnly env /\ store = Some s /\
                 len T <= step s /\ clicked env = Some StartOver /\
                 perform T c store = Some (set_step (-1) s)).
Proof.
  intros Hwf. destruct c as [env|env].
  - destruct (configured_dec env) as [Hc|Hc].
    + right; left. exists env, (init_session_state T store).
      repeat split; try assumption.
      destruct store as [s|]; [apply perform_whole; auto|apply perform_first; auto].
    + left. apply perform_unconfigured, Hc.
  - destruct store as [s|]; [|left; reflexivity].
    rewrite perform_completion.
    destruct (Z.leb_spec (len T) (step s)); [|left; reflexivity].
    destruct (bool_decide_reflect (clicked env = Some StartOver)); [|left; reflexivity].
    right; right. exists env, s. auto.
Qed.

Lemma sound_init_session_state store high :
  sound T store high ->
  well_formed T (init_session_state T store) /\
  empty_beyond high (init_session_state T store).
Proof.
  intros [Hh H]. destruct store as [s|]; cbn.
  - destruct (H s eq_refl) as (? & ? & ?). auto.
  - split; [apply fresh_session_well_formed|apply empty_beyond_fresh].
Qed.

Lemma sound_perform c store high :
  sound T store high ->
  sound T (perform T c store) (Z.max high (step_of (perform T c store))).
Proof.
  intros Hs. pose proof Hs as [Hh H].
  destruct (perform_cases c store) as [->|[(env & s0 & -> & Hc & Hs0 & ->)
                                        |(env & s & -> & -> & Hge & Hclick & ->)]].
  - intros s Hst. apply H, Hst.
  - split; [lia|]. intros s Hst. destruct (H s Hst) as (Hwf & Hle & Hempty).
    rewrite Hst. cbn [step_of]. rewrite Z.max_l by lia. auto.
  - destruct (sound_init_session_state store high Hs) as [Hwf Hempty]. rewrite Hs0 in *.
    split; [lia|]. intros s [= <-]. cbn [step_of].
    split; [apply executed_well_formed; assumption|]. split; [lia|].
    intros i x Hi. rewrite executed_slots_beyond by (assumption || lia).
    apply Hempty. lia.
  - destruct (H s eq_refl) as (Hwf & Hle & Hempty).
    split; [lia|]. intros s' [= <-]. cbn [step_of]. fields.
    split; [split; [fields; lia|apply Hwf]|]. split; [lia|].
    intros i x Hi. apply Hempty. lia.
Qed.

Lemma sound_lifetime cs store high :
  sound T store high ->
  sound T (fst (lifetime T cs store high)) (snd (lifetime T cs store high)).
Proof.
  revert store high. induction cs as [|c cs IH]; intros store high Hs; [exact Hs|].
  cbn [lifetime]. apply IH, sound_perform, Hs.
Qed.

Lemma sound_start : sound T None (-1).
Proof. split; [lia|]. intros s [=]. Qed.

Lemma reachable_well_formed s : reachable T s -> well_formed T s.
Proof.
  intros [cs Hcs]. pose proof (sound_lifetime cs None (-1) sound_start) as [_ H].
  apply (H s Hcs).
Qed.

End Lifetimes.

(** ** Executions that generate a section *)

Section Generation.

Variable T : list string.
Hypothesis at_least_two : 2 <= len T.
Variable env : Env.

Lemma generates_target s name :
  generates T env s name ->
  generation_target T env (typed env s) = Some (set_step (step s + 1) (typed env s)).
Proof.
  intros [[[Hc Hs]|[Hc Hs]] _]; unfold generation_target; rewrite Hc;
    change (step (typed env s)) with (step s).
  - rewrite Hs. reflexivity.
  - split_tests. reflexivity.
Qed.

(** The state, the outcome and the messages of a generating execution. *)
Lemma generates_executed s name :
  generates T env s name ->
  executed T env s =
    set_section_contents
      (<[Z.to_nat (step s + 1)
         := generation_text env name create_system_prompt (model_choice env)
              (typed env s)]> (section_contents s))
      (set_doc (doc s ++ generation_blocks env name create_system_prompt
                           (model_choice env) (typed env s))
         (set_step (step s + 1) (typed env s))) /\
  handle_outcome T env (typed env s) = Raises RerunException /\
  handle_errors T env create_system_prompt (model_choice env) (typed env s) =
    generation_messages env name create_system_prompt (model_choice env) (typed env s).
Proof.
  intros Hg. pose proof (generates_target s name Hg) as Ht. destruct Hg as [_ Hname].
  unfold executed, handle_effect, handle_outcome, handle_errors. rewrite Ht.
  unfold generated, generation_errors. fields. rewrite Hname.
  repeat split; reflexivity.
Qed.

(** The call failed: nothing returned, nothing appended, the error shown. *)
Lemma generation_failed s name msg :
  chat_completion env (request_for env s name) = ApiError msg ->
  generation_text env name create_system_prompt (model_choice env) (typed env s) = "" /\
  generation_blocks env name create_system_prompt (model_choice env) (typed env s) = [] /\
  generation_messages env name create_system_prompt (model_choice env) (typed env s)
    = [Error ("An error occurred: " +:+ msg)].
Proof.
  unfold request_for, generation_text, generation_blocks, generation_messages.
  intros ->. repeat split.
Qed.

Lemma generates_in_range s name :
  generates T env s name -> 0 <= step s + 1 < len T.
Proof. intros [[[_ Hs]|[_ Hs]] _]; lia. Qed.

End Generation.

(** ** Lifetimes in which no section is generated twice *)

Section ForwardOnly.

Variable T : list string.
Hypothesis at_least_two : 2 <= len T.

Lemma tidy_fresh : well_formed T (fresh_session T) /\
                   entry_count (doc (fresh_session T)) <= step (fresh_session T) + 1.
Proof. split; [apply fresh_session_well_formed|]. vm_compute. discriminate. Qed.

Lemma executed_entry_count env s :
  well_formed T s -> clicked env <> Some PreviousSection ->
  entry_count (doc s) <= step s + 1 ->
  entry_count (doc (executed T env s)) <= step (executed T env s) + 1.
Proof.
  intros Hwf Hclick Hle. unfold executed.
  rewrite handle_effect_step by (assumption || apply typed_well_formed; assumption).
  destruct (generation_target T env (typed env s)) as [s1|] eqn:Hg.
  - destruct (generation_target_step T env _ _ at_least_two Hg) as [-> Hr].
    unfold handle_effect. rewrite Hg.
    assert (Hstep : next_step (len T) (clicked env) (step (typed env s)) = step s + 1).
    { unfold generation_target in Hg. unfold next_step.
      change (step (typed env s)) with (step s) in *.
      destruct (clicked env) as [[]|]; try discriminate; split_tests; try discriminate; lia. }
    rewrite Hstep. unfold generated. fields.
    change (doc (typed env s)) with (doc s).
    destruct (T !! _) as [name|]; [|fields; untyped; lia].
    fields. untyped.
    pose proof (entry_count_generation env name create_system_prompt (model_choice env)
                  (set_step (step s + 1) (typed env s)) (doc s)). lia.
  - destruct (handle_effect_idle T env create_system_prompt (model_choice env) _ Hg)
      as [_ ->].
    change (step (typed env s)) with (step s).
    change (doc (typed env s)) with (doc s).
    destruct Hwf as [Hs _]. unfold next_step.
    destruct (clicked env) as [[]|]; split_tests; try lia. congruence.
Qed.

Lemma tidy_perform c store :
  goes_back c = false -> tidy T store -> tidy T (perform T c store).
Proof.
  intros Hc Ht.
  destruct (perform_cases T at_least_two c store (fun s Hs => proj1 (Ht s Hs)))
    as [->|[(env & s0 & -> & Hconf & Hs0 & ->)|(env & s & -> & _)]];
    [exact Ht| |discriminate].
  assert (H0 : well_formed T s0 /\ entry_count (doc s0) <= step s0 + 1).
  { subst s0. destruct store as [s|]; [apply Ht; reflexivity|apply tidy_fresh]. }
  destruct H0 as [Hwf Hle]. intros s [= <-].
  split; [apply executed_well_formed; assumption|].
  apply executed_entry_count; try assumption.
  cbn in Hc. apply bool_decide_eq_false in Hc. exact Hc.
Qed.

Lemma tidy_lifetime cs store high :
  forward_only cs -> tidy T store -> tidy T (fst (lifetime T cs store high)).
Proof.
  intros Hf. revert store high.
  induction Hf as [|c cs Hc _ IH]; intros store high Ht; [exact Ht|].
  cbn [lifetime]. apply IH, tidy_perform; assumption.
Qed.

Lemma tidy_start : tidy T None.
Proof. intros s [=]. Qed.

End ForwardOnly.

(** * Properties of the workflow *)

(** C1. For a template of N >= 2 sections, the step of every state a lifetime
    can reach lies in {-1, ..., N}, and an execution of the script moves it as
    the state machine says: Start Generating takes -1 to 0, Next Section adds
    exactly 1 (from 0 <= step < N-1), Previous Section subtracts exactly 1
    (from 0 < step < N), Complete takes N-1 to N; any other click, or a click
    outside these states, leaves the step as it is. *)
Theorem step_stays_in_range_and_moves_by_one (T : list string) (s : SessionState) :
  2 <= len T -> reachable T s ->
  -1 <= step s <= len T /\
  forall env, configured env ->
    exists s', stored (main T env (Some s)) = Some s' /\
               step s' = next_step (len T) (clicked env) (step s).
Proof.
  intros HN Hr. pose proof (reachable_well_formed T HN s Hr) as Hwf.
  split; [apply Hwf|]. intros env Hc. exists (executed T env s).
  split; [apply main_stored; assumption|].
  unfold executed. rewrite handle_effect_step by assumption. reflexivity.
Qed.

Lemma step_stays_in_range_and_moves_by_one_witness :
  2 <= len App.SECTIONS_TEMPLATE /\
  reachable App.SECTIONS_TEMPLATE (fresh_session App.SECTIONS_TEMPLATE) /\
  -1 <= step (fresh_session App.SECTIONS_TEMPLATE) <= len App.SECTIONS_TEMPLATE.
Proof.
  assert (H2 : 2 <= len App.SECTIONS_TEMPLATE) by (vm_compute; discriminate).
  assert (Hr : reachable App.SECTIONS_TEMPLATE (fresh_session App.SECTIONS_TEMPLATE))
    by (exists [Whole rerun]; vm_compute; reflexivity).
  split; [exact H2|]. split; [exact Hr|].
  exact (proj1 (step_stays_in_range_and_moves_by_one App.SECTIONS_TEMPLATE _ H2 Hr)).
Defined.

(** C2, as stated, fails: after Start, Next, Previous the step is 0 while the
    slot of the second section still holds its text. *)
Lemma content_ahead_after_previous :
  after App.SECTIONS_TEMPLATE back_to_first
    = Some (state_after App.SECTIONS_TEMPLATE back_to_first) /\
  step (state_after App.SECTIONS_TEMPLATE back_to_first) = 0 /\
  py_getitem (section_contents (state_after App.SECTIONS_TEMPLATE back_to_first)) 1
    = Some "textB" /\
  ~ empty_beyond (step (state_after App.SECTIONS_TEMPLATE back_to_first))
      (state_after App.SECTIONS_TEMPLATE back_to_first).
Proof.
  split; [vm_compute; reflexivity|].
  split; [vm_compute; reflexivity|].
  split; [vm_compute; reflexivity|].
  intros H.
  assert (Hb : "textB" = "") by
    (apply (H 1); [vm_compute; reflexivity|vm_compute; reflexivity]).
  discriminate Hb.
Qed.

(** C2, amended. At every point of a lifetime (Start Over included) the slot
    [section_contents[i]] is the empty string for every index i strictly
    greater than the highest step reached so far; the current step is never
    above that height. *)
Theorem content_only_up_to_highest_step
        (T : list string) (cs : list Call) (s : SessionState) (high : Z) :
  2 <= len T -> lifetime T cs None (-1) = (Some s, high) ->
  step s <= high /\ empty_beyond high s.
Proof.
  intros HN Hl.
  pose proof (sound_lifetime T HN cs None (-1) (sound_start T)) as [_ H].
  rewrite Hl in H. cbn [fst snd] in H. apply (H s eq_refl).
Qed.

Lemma content_only_up_to_highest_step_witness :
  lifetime App.SECTIONS_TEMPLATE back_to_first None (-1)
    = (Some (state_after App.SECTIONS_TEMPLATE back_to_first), 1) /\
  step (state_after App.SECTIONS_TEMPLATE back_to_first) <= 1 /\
  empty_beyond 1 (state_after App.SECTIONS_TEMPLATE back_to_first).
Proof.
  assert (Hl : lifetime App.SECTIONS_TEMPLATE back_to_first None (-1)
               = (Some (state_after App.SECTIONS_TEMPLATE back_to_first), 1))
    by (vm_compute; reflexivity).
  split; [exact Hl|].
  apply (content_only_up_to_highest_step App.SECTIONS_TEMPLATE back_to_first _ 1);
    [vm_compute; discriminate|exact Hl].
Defined.

(** C3, as stated, fails: after all nine sections and Complete, the Start Over
    branch sets the step to -1 but the content slots and the document are
    those of the finished plan, not those of a fresh session. *)
Lemma start_over_keeps_content_and_document :
  after App.SECTIONS_TEMPLATE straight_through
    = Some (state_after App.SECTIONS_TEMPLATE straight_through) /\
  step (state_after App.SECTIONS_TEMPLATE straight_through) = len App.SECTIONS_TEMPLATE /\
  step (session (completion_ui App.SECTIONS_TEMPLATE (click StartOver (Content ""))
                   (state_after App.SECTIONS_TEMPLATE straight_through) [])) = -1 /\
  py_getitem
    (section_contents
       (session (completion_ui App.SECTIONS_TEMPLATE (click StartOver (Content ""))
                   (state_after App.SECTIONS_TEMPLATE straight_through) []))) 0
    = Some "text" /\
  entry_count
    (doc (session (completion_ui App.SECTIONS_TEMPLATE (click StartOver (Content ""))
                     (state_after App.SECTIONS_TEMPLATE straight_through) []))) = 9 /\
  session (completion_ui App.SECTIONS_TEMPLATE (click StartOver (Content ""))
             (state_after App.SECTIONS_TEMPLATE straight_through) [])
    <> fresh_session App.SECTIONS_TEMPLATE.
Proof.
  split; [vm_compute; reflexivity|].
  split; [vm_compute; reflexivity|].
  split; [vm_compute; reflexivity|].
  split; [vm_compute; reflexivity|].
  split; [vm_compute; reflexivity|].
  intros H. apply (f_equal section_contents) in H. vm_compute in H. discriminate H.
Qed.

(** C3, amended. From the completed state (step >= N) the Start Over branch
    sets the step to -1 and returns; the content slots, the document and the
    profile are left exactly as they were. *)
Theorem start_over_resets_only_the_step
        (T : list string) (env : Env) (s : SessionState) (o : list UiOut) :
  clicked env = Some StartOver -> len T <= step s ->
  outcome (completion_ui T env s o) = Returns tt /\
  session (completion_ui T env s o) = set_step (-1) s /\
  step (session (completion_ui T env s o)) = -1 /\
  section_contents (session (completion_ui T env s o)) = section_contents s /\
  doc (session (completion_ui T env s o)) = doc s.
Proof.
  intros Hc Hs. rewrite completion_ui_run.
  destruct (Z.leb_spec (len T) (step s)); [|lia].
  rewrite bool_decide_eq_true_2 by exact Hc. repeat split.
Qed.

Lemma start_over_resets_only_the_step_witness :
  step (session (completion_ui App.SECTIONS_TEMPLATE (click StartOver (Content ""))
                   (state_after App.SECTIONS_TEMPLATE straight_through) [])) = -1 /\
  doc (session (completion_ui App.SECTIONS_TEMPLATE (click StartOver (Content ""))
                  (state_after App.SECTIONS_TEMPLATE straight_through) []))
    = doc (state_after App.SECTIONS_TEMPLATE straight_through).
Proof.
  pose proof (start_over_resets_only_the_step App.SECTIONS_TEMPLATE
                (click StartOver (Content ""))
                (state_after App.SECTIONS_TEMPLATE straight_through) []
                eq_refl ltac:(vm_compute; discriminate)) as (_ & _ & H1 & _ & H2).
  exact (conj H1 H2).
Defined.

(** C4, as stated, fails: once a section has been generated twice the
    document holds more entries than sections visited.  After Start, Next,
    Previous, Next, Previous and a Next whose generation fails, the step is 1,
    the slot at the step is empty and the error is shown, but the document has
    3 entries, which is not below step + 1 = 2. *)
Lemma entry_count_not_below_step_after_failure :
  after App.SECTIONS_TEMPLATE fail_after_regenerating
    = Some (state_after App.SECTIONS_TEMPLATE fail_after_regenerating) /\
  In (Error "An error occurred: timeout")
    (page (main App.SECTIONS_TEMPLATE (click NextSection (ApiError "timeout"))
             (after App.SECTIONS_TEMPLATE second_section_twice))) /\
  step (state_after App.SECTIONS_TEMPLATE fail_after_regenerating) = 1 /\
  py_getitem (section_contents (state_after App.SECTIONS_TEMPLATE fail_after_regenerating)) 1
    = Some "" /\
  entry_count (doc (state_after App.SECTIONS_TEMPLATE fail_after_regenerating)) = 3 /\
  ~ entry_count (doc (state_after App.SECTIONS_TEMPLATE fail_after_regenerating))
    < step (state_after App.SECTIONS_TEMPLATE fail_after_regenerating) + 1.
Proof.
  split; [vm_compute; reflexivity|].
  split; [vm_compute; tauto|].
  split; [vm_compute; reflexivity|].
  split; [vm_compute; reflexivity|].
  split; [vm_compute; reflexivity|].
  vm_compute. intros H. discriminate H.
Qed.

(** C4, amended. When the generation call of an execution fails, the step has
    advanced by one, the slot at the new step holds the empty string, the
    document is exactly as it was before, the error message is shown, the
    execution ends with the rerun (not with an uncaught exception), and the
    next execution moves the step as the state machine says.  The entry count
    of the document is strictly less than step + 1 when no section was
    generated twice before (no Previous Section, no Start Over). *)
Theorem failed_generation_advances_without_appending
        (T : list string) (cs : list Call) (s : SessionState) (env : Env)
        (name msg : string) :
  2 <= len T -> after T cs = Some s -> configured env -> generates T env s name ->
  chat_completion env (request_for env s name) = ApiError msg ->
  exists s',
    stored (main T env (Some s)) = Some s' /\
    step s' = step s + 1 /\
    py_getitem (section_contents s') (step s') = Some "" /\
    doc s' = doc s /\
    ended (main T env (Some s)) = Raises RerunException /\
    In (Error ("An error occurred: " +:+ msg)) (page (main T env (Some s))) /\
    (forward_only cs -> entry_count (doc s') < step s' + 1) /\
    (forall env', configured env' ->
       exists s'', stored (main T env' (Some s')) = Some s'' /\
                   step s'' = next_step (len T) (clicked env') (step s')).
Proof.
  intros HN Hcs Hc Hg Hfail.
  assert (Hwf : well_formed T s) by (apply reachable_well_formed; [exact HN|exists cs; exact Hcs]).
  pose proof (generates_in_range T HN env s name Hg) as Hrange.
  destruct (generates_executed T env s name Hg) as (Hex & Hout & Herr).
  destruct (generation_failed env s name msg Hfail) as (Ht & Hb & Hm).
  rewrite Ht, Hb, app_nil_r in Hex. rewrite Hm in Herr.
  exists (executed T env s).
  split; [apply main_stored; assumption|].
  assert (Hwf' : well_formed T (executed T env s)) by (apply executed_well_formed; assumption).
  rewrite Hex in *. fields. untyped.
  split; [reflexivity|].
  split.
  { rewrite py_getitem_nonneg by lia. apply list_lookup_insert_eq.
    destruct Hwf as [_ Hlen]. unfold len in *. lia. }
  split; [reflexivity|].
  split; [rewrite main_ended by assumption; exact Hout|].
  split.
  { destruct (main_page T HN env s Hc Hwf) as (o1 & o2 & ->). rewrite Herr.
    apply in_or_app. right. left. reflexivity. }
  split.
  { intros Hf.
    destruct (tidy_lifetime T HN cs None (-1) Hf (tidy_start T) s Hcs) as [_ Hle]. lia. }
  intros env' Hc'. eexists. split; [apply main_stored; assumption|].
  unfold executed. rewrite handle_effect_step by assumption. reflexivity.
Qed.

Lemma failed_generation_advances_without_appending_witness :
  after App.SECTIONS_TEMPLATE first_section_only
    = Some (state_after App.SECTIONS_TEMPLATE first_section_only) /\
  exists s',
    stored (main App.SECTIONS_TEMPLATE (click NextSection (ApiError "timeout"))
              (Some (state_after App.SECTIONS_TEMPLATE first_section_only))) = Some s' /\
    step s' = 1 /\ entry_count (doc s') < 2.
Proof.
  assert (Hs : after App.SECTIONS_TEMPLATE first_section_only
               = Some (state_after App.SECTIONS_TEMPLATE first_section_only))
    by (vm_compute; reflexivity).
  split; [exact Hs|].
  destruct (failed_generation_advances_without_appending
              App.SECTIONS_TEMPLATE first_section_only
              (state_after App.SECTIONS_TEMPLATE first_section_only)
              (click NextSection (ApiError "timeout"))
              "Company Description" "timeout")
    as (s' & Hst & Hstep & _ & _ & _ & _ & Hcount & _).
  - vm_compute; discriminate.
  - exact Hs.
  - vm_compute; reflexivity.
  - split; [right; split; [reflexivity|vm_compute; split; [discriminate|reflexivity]]|vm_compute; reflexivity].
  - reflexivity.
  - exists s'. split; [exact Hst|]. split; [exact Hstep|].
    rewrite Hstep in Hcount. apply Hcount.
    repeat constructor.
Defined.

(** C5, as stated, fails: the downloaded document of the scenario does not
    have the three entries (A, textA), (B, textB2), (C, textC). *)
Lemma regenerated_section_not_replaced :
  map (fun f => entries (fst f))
      (downloads (page (main ABC (click Complete (Content ""))
                          (after ABC (regenerate_B plain_docx
                                        "textA" "textB" "textB2" "textC")))))
  <> [[("A", "textA"); ("B", "textB2"); ("C", "textC")]].
Proof. vm_compute. discriminate. Qed.

(** The call succeeded and the document took the section name and the text. *)
Lemma generation_taken env name sp m s text :
  chat_completion env (mkRequest m sp (user_input name s)) = Content text ->
  docx_error env name = None -> docx_error env text = None ->
  generation_text env name sp m s = text /\
  generation_blocks env name sp m s = [Heading name 1; Paragraph text] /\
  generation_messages env name sp m s = [].
Proof.
  unfold generation_text, generation_blocks, generation_messages.
  intros -> -> ->. repeat split.
Qed.

(** Tactics that run one execution of a concrete lifetime through the closed
    forms. *)
Ltac explicit_state :=
  match goal with
  | |- context [perform _ _ (Some ?st)] =>
      let x := eval vm_compute in st in
      replace st with x by (vm_compute; reflexivity)
  | |- Some ?st = _ =>
      let x := eval vm_compute in st in
      replace st with x by (vm_compute; reflexivity)
  end.
Ltac idle_execution HN :=
  rewrite (perform_whole ABC HN)
    by (first [reflexivity|split; [vm_compute; split; discriminate|reflexivity]]);
  explicit_state.
Ltac generating_execution HN name Hname Htext :=
  match goal with
  | |- context [executed ABC ?env ?st] =>
      let Hg := fresh in
      assert (Hg : generates ABC env st name)
        by (split; [first [left; split; reflexivity
                          |right; split; [reflexivity|vm_compute; split;
                                                      [discriminate|reflexivity]]]
                   |reflexivity]);
      rewrite (proj1 (generates_executed ABC env st name Hg));
      destruct (generation_taken env name create_system_prompt (model_choice env)
                  (typed env st) _ eq_refl Hname Htext) as (-> & -> & _);
      clear Hg
  end;
  explicit_state.

(** The state after the scenario, one execution after the other. *)
Lemma regenerate_B_state (rejects : string -> option DocxError) (tA tB tB2 tC : string) :
  library_takes rejects "A" -> library_takes rejects "B" -> library_takes rejects "C" ->
  library_takes rejects tA -> library_takes rejects tB ->
  library_takes rejects tB2 -> library_takes rejects tC ->
  after ABC (regenerate_B rejects tA tB tB2 tC) =
    Some {| step := 2;
            business_name := ""; industry := ""; core_product := "";
            problem_solved := ""; additional_info := "";
            doc := [Heading "Business Plan" 0;
                    Heading "A" 1; Paragraph tA; Heading "B" 1; Paragraph tB;
                    Heading "B" 1; Paragraph tB2; Heading "C" 1; Paragraph tC];
            section_contents := [tA; tB2; tC] |}.
Proof.
  intros HA HB HC HtA HtB HtB2 HtC.
  assert (HN : 2 <= len ABC) by (vm_compute; discriminate).
  unfold after, regenerate_B. cbn [lifetime fst].
  rewrite (perform_first ABC HN) by reflexivity.
  generating_execution HN "A" HA HtA.
  idle_execution HN.
  rewrite (perform_whole ABC HN)
    by (first [reflexivity|split; [vm_compute; split; discriminate|reflexivity]]).
  generating_execution HN "B" HB HtB.
  idle_execution HN.
  idle_execution HN.
  rewrite (perform_whole ABC HN)
    by (first [reflexivity|split; [vm_compute; split; discriminate|reflexivity]]).
  generating_execution HN "B" HB HtB2.
  idle_execution HN.
  rewrite (perform_whole ABC HN)
    by (first [reflexivity|split; [vm_compute; split; discriminate|reflexivity]]).
  generating_execution HN "C" HC HtC.
  rewrite (perform_whole ABC HN)
    by (first [reflexivity|split; [vm_compute; split; discriminate|reflexivity]]).
  explicit_state. reflexivity.
Qed.

(** C5, amended. In the scenario with sections A, B, C, when the document
    library takes the three section names and the four generated texts: after
    Start, Next, Previous, Next (B generated again), Next and Complete, the
    step is 3, the content slots hold the latest texts, and the document
    offered for download has four entries in generation order: (A, textA),
    (B, textB), (B, textB2), (C, textC) -- the regenerated section appears
    twice, its first text before its latest. *)
Theorem regenerated_section_is_appended_again
        (rejects : string -> option DocxError) (tA tB tB2 tC : string) :
  library_takes rejects "A" -> library_takes rejects "B" -> library_takes rejects "C" ->
  library_takes rejects tA -> library_takes rejects tB ->
  library_takes rejects tB2 -> library_takes rejects tC ->
  let r := main ABC (click_with rejects Complete (Content ""))
                (after ABC (regenerate_B rejects tA tB tB2 tC)) in
  option_map step (stored r) = Some 3 /\
  option_map section_contents (stored r) = Some [tA; tB2; tC] /\
  map (fun f => (entries (fst f), snd f)) (downloads (page r)) =
    [([("A", tA); ("B", tB); ("B", tB2); ("C", tC)], "business_plan.docx")].
Proof.
  intros HA HB HC HtA HtB HtB2 HtC.
  rewrite (regenerate_B_state rejects tA tB tB2 tC) by assumption.
  vm_compute. repeat split.
Qed.

Lemma regenerated_section_is_appended_again_witness :
  map (fun f => (entries (fst f), snd f))
      (downloads (page (main ABC (click_with plain_docx Complete (Content ""))
                          (after ABC (regenerate_B plain_docx
                                        "textA" "textB" "textB2" "textC")))))
  = [([("A", "textA"); ("B", "textB"); ("B", "textB2"); ("C", "textC")],
      "business_plan.docx")].
Proof.
  apply (regenerated_section_is_appended_again plain_docx
           "textA" "textB" "textB2" "textC"); reflexivity.
Defined.

(** C6, as stated, fails: on a session whose profile is absent (all five
    fields empty) a click on Start Generating is not a no-op -- the step
    becomes 0 and the first section is generated and stored. *)
Lemma start_with_absent_profile_generates :
  profile_absent (fresh_session App.SECTIONS_TEMPLATE) /\
  option_map step
    (stored (main App.SECTIONS_TEMPLATE (click StartGenerating (Content "textA"))
               (Some (fresh_session App.SECTIONS_TEMPLATE)))) = Some 0 /\
  option_map (fun s => py_getitem (section_contents s) 0)
    (stored (main App.SECTIONS_TEMPLATE (click StartGenerating (Content "textA"))
               (Some (fresh_session App.SECTIONS_TEMPLATE)))) = Some (Some "textA") /\
  stored (main App.SECTIONS_TEMPLATE (click StartGenerating (Content "textA"))
            (Some (fresh_session App.SECTIONS_TEMPLATE)))
    <> Some (fresh_session App.SECTIONS_TEMPLATE).
Proof.
  split; [reflexivity|].
  split; [vm_compute; reflexivity|].
  split; [vm_compute; reflexivity|].
  vm_compute. discriminate.
Qed.

(** C6, amended. A click on Start Generating acts only when step == -1: it
    then sets the step to 0, sends the request for the first section and
    stores the result of the generation in slot 0: the returned text, or the
    empty string if the call fails or the document library rejects the section
    name or the text.  At any other step the click changes nothing but what
    the form reports.  There is no check of the profile: all this holds
    whether or not its fields are empty. *)
Theorem start_generates_first_section (T : list string) (env : Env) (s : SessionState) :
  2 <= len T -> well_formed T s -> configured env ->
  clicked env = Some StartGenerating ->
  (step s = -1 ->
   exists name s',
     py_getitem T 0 = Some name /\
     stored (main T env (Some s)) = Some s' /\
     step s' = 0 /\
     section_contents s' =
       <[0%nat := match chat_completion env (request_for env s name) with
                  | Content c =>
                      match docx_error env name, docx_error env c with
                      | None, None => c
                      | _, _ => ""
                      end
                  | ApiError _ => ""
                  end]> (section_contents s)) /\
  (step s <> -1 -> stored (main T env (Some s)) = Some (typed env s)).
Proof.
  intros HN Hwf Hc Hclick. split.
  - intros Hs.
    destruct (py_getitem_in_range T 0 ltac:(lia)) as (name & Hget & Hlook).
    assert (Hg : generates T env s name).
    { split; [left; auto|]. rewrite Hs. exact Hlook. }
    destruct (generates_executed T env s name Hg) as (Hex & _ & _).
    exists name, (executed T env s).
    split; [exact Hget|]. split; [apply main_stored; assumption|].
    rewrite Hex, Hs. split; reflexivity.
  - intros Hs. rewrite main_stored by assumption. f_equal.
    unfold executed, handle_effect, generation_target. rewrite Hclick. untyped.
    destruct (Z.eqb_spec (step s) (-1)); [contradiction|reflexivity].
Qed.

Lemma start_generates_first_section_witness :
  exists s',
    stored (main App.SECTIONS_TEMPLATE (click StartGenerating (Content "textA"))
              (Some (fresh_session App.SECTIONS_TEMPLATE))) = Some s' /\
    step s' = 0.
Proof.
  destruct (proj1 (start_generates_first_section App.SECTIONS_TEMPLATE
                     (click StartGenerating (Content "textA"))
                     (fresh_session App.SECTIONS_TEMPLATE)
                     ltac:(vm_compute; discriminate)
                     (fresh_session_well_formed App.SECTIONS_TEMPLATE)
                     eq_refl eq_refl) eq_refl)
    as (name & s' & _ & Hst & Hstep & _).
  exists s'. split; assumption.
Defined.

(** C7. A click on Previous Section acts only when step > 0; it then
    decrements the step by 1 and returns, and changes nothing else: no
    generation takes place, every content slot, the document and the profile
    are as before.  At step <= 0 it changes nothing at all. *)
Theorem previous_only_moves_the_step
        (T : list string) (env : Env) (sp m : string) (s : SessionState) (o : list UiOut) :
  clicked env = Some PreviousSection ->
  outcome (navigation_buttons T env sp m s o) = Returns tt /\
  session (navigation_buttons T env sp m s o)
    = (if 0 <? step s then set_step (step s - 1) s else s) /\
  section_contents (session (navigation_buttons T env sp m s o)) = section_contents s /\
  doc (session (navigation_buttons T env sp m s o)) = doc s /\
  profile (session (navigation_buttons T env sp m s o)) = profile s.
Proof.
  intros Hc. unfold navigation_buttons. script.
  destruct (Z.ltb_spec 0 (step s)); script.
  - destruct (Z.ltb_spec (step s - 1) (len T - 1)); script; repeat split.
  - destruct (Z.ltb_spec (step s) (len T - 1)); script; repeat split.
Qed.

Lemma previous_only_moves_the_step_witness :
  step (session (navigation_buttons App.SECTIONS_TEMPLATE
                   (click PreviousSection (Content "")) create_system_prompt
                   "gpt-3.5-turbo"
                   (set_step 1 (fresh_session App.SECTIONS_TEMPLATE)) [])) = 0.
Proof.
  rewrite (proj1 (proj2 (previous_only_moves_the_step App.SECTIONS_TEMPLATE
                           (click PreviousSection (Content "")) create_system_prompt
                           "gpt-3.5-turbo"
                           (set_step 1 (fresh_session App.SECTIONS_TEMPLATE)) []
                           eq_refl))).
  reflexivity.
Defined.

(** C8, as stated, fails: in the completed state (step = N = 9) the progress
    is 9/8, which is not in [0, 1]. *)
Lemma progress_above_one_when_complete :
  step (state_after App.SECTIONS_TEMPLATE straight_through) = len App.SECTIONS_TEMPLATE /\
  outcome (calculate_progress App.SECTIONS_TEMPLATE
             (state_after App.SECTIONS_TEMPLATE straight_through) [])
    = Returns (9 # 8)%Q /\
  ~ (9 # 8 <= 1)%Q.
Proof.
  split; [vm_compute; reflexivity|].
  split; [vm_compute; reflexivity|].
  unfold Qle. cbn. lia.
Qed.

(** C8, amended. For N >= 2 and every step in {-1, ..., N} the progress is
    exactly max(0, step) / (N - 1); it lies in [0, 1] for step <= N - 1, and
    in the completed state step = N it is above 1. *)
Theorem progress_is_step_over_last_index
        (T : list string) (s : SessionState) (o : list UiOut) :
  2 <= len T -> -1 <= step s <= len T ->
  calculate_progress T s o
    = mkRun (Returns (inject_Z (Z.max 0 (step s)) / inject_Z (len T - 1))%Q) s o /\
  (step s <= len T - 1 ->
   (0 <= inject_Z (Z.max 0 (step s)) / inject_Z (len T - 1) <= 1)%Q) /\
  (step s = len T ->
   (1 < inject_Z (Z.max 0 (step s)) / inject_Z (len T - 1))%Q).
Proof.
  intros HN Hs. split; [|split].
  - unfold calculate_progress. script.
    destruct (Z.eqb_spec (len T - 1) 0); [lia|reflexivity].
  - intros Hle.
    pose proof (fraction_in_unit_interval (Z.max 0 (step s)) (len T - 1)
                  ltac:(lia) ltac:(lia)) as H.
    apply andb_prop in H. destruct H as [H0 H1].
    split; apply Qle_bool_iff; assumption.
  - intros Heq. apply fraction_above_one. lia.
Qed.

Lemma progress_is_step_over_last_index_witness :
  outcome (calculate_progress App.SECTIONS_TEMPLATE
             (set_step 4 (fresh_session App.SECTIONS_TEMPLATE)) [])
    = Returns (inject_Z 4 / inject_Z 8)%Q /\
  (0 <= inject_Z 4 / inject_Z 8 <= 1)%Q.
Proof.
  pose proof (progress_is_step_over_last_index App.SECTIONS_TEMPLATE
                (set_step 4 (fresh_session App.SECTIONS_TEMPLATE)) []
                ltac:(vm_compute; discriminate)
                ltac:(vm_compute; split; discriminate)) as (Hrun & Hin & _).
  split.
  - rewrite Hrun. reflexivity.
  - apply Hin. vm_compute. discriminate.
Defined.

(** C9. The Start Over branch leaves the profile unchanged -- all five fields
    hold the same values after it as before -- and of the whole session state
    it modifies nothing but the step. *)
Theorem start_over_keeps_profile
        (T : list string) (env : Env) (s : SessionState) (o : list UiOut) :
  profile (session (completion_ui T env s o)) = profile s /\
  business_name (session (completion_ui T env s o)) = business_name s /\
  industry (session (completion_ui T env s o)) = industry s /\
  core_product (session (completion_ui T env s o)) = core_product s /\
  problem_solved (session (completion_ui T env s o)) = problem_solved s /\
  additional_info (session (completion_ui T env s o)) = additional_info s /\
  session (completion_ui T env s o)
    = set_step (step (session (completion_ui T env s o))) s.
Proof.
  rewrite completion_ui_run.
  destruct (len T <=? step s); [destruct (bool_decide _)|];
    destruct s; repeat split.
Qed.



(** ** After completion *)

(** X18. Once the step is N, every further execution of the script stops in
    [section_content_ui] before [completion_ui] is reached, so a click on
    Start Over is not acted on and the stored state stays as it is (up to
    what the form reports). *)
Lemma main_stops_when_complete (T : list string) (env : Env) (s : SessionState) :
  2 <= len T -> well_formed T s -> configured env -> step s = len T ->
  stored (main T env (Some s)) = Some (typed env s) /\
  ended (main T env (Some s)) = Raises StreamlitAPIException.
Proof.
  intros HN Hwf Hc Hs.
  rewrite main_stored, main_ended by assumption.
  unfold executed, handle_effect, handle_outcome, generation_target. untyped.
  destruct (clicked env) as [[]|]; split_tests; split; reflexivity.
Qed.

(** * Further properties of the script *)

(** ** What an execution does to the content slots and the document *)

Lemma target_generates (T : list string) (env : Env) (s s1 : SessionState) :
  2 <= len T ->
  generation_target T env (typed env s) = Some s1 ->
  exists name, generates T env s name.
Proof.
  intros HN Hg.
  destruct (generation_target_step T env _ _ HN Hg) as [_ Hr]. untyped.
  destruct (lookup_lt_is_Some_2 T (Z.to_nat (step s + 1))) as [name Hname];
    [unfold len in *; lia|].
  exists name. split; [|exact Hname].
  unfold generation_target in Hg. untyped.
  destruct (clicked env) as [[]|]; try discriminate; revert Hg; split_tests;
    try discriminate; intros _; [left|right]; split; try reflexivity; lia.
Qed.

Section ExecutedCases.

Variable T : list string.
Hypothesis at_least_two : 2 <= len T.
Variable env : Env.

(** Either nothing is generated and slots and document stay, or the section
    at the next step is generated: its slot is overwritten and the document
    grows by what the generation appends -- the entry of the section with the
    stored string as paragraph, or, with the slot emptied, nothing (the call
    failed), a paragraph (the section name was rejected) or the heading of
    the section and a paragraph (the text was rejected). *)
Lemma executed_cases s :
  well_formed T s ->
  (section_contents (executed T env s) = section_contents s /\
   doc (executed T env s) = doc s) \/
  (exists name c blocks,
      generates T env s name /\ -1 <= step s < len T - 1 /\
      step (executed T env s) = step s + 1 /\
      section_contents (executed T env s)
        = <[Z.to_nat (step s + 1) := c]> (section_contents s) /\
      doc (executed T env s) = doc s ++ blocks /\
      (blocks = [Heading name 1; Paragraph c] \/
       (c = "" /\
        (blocks = [] \/
         exists w, blocks = [Paragraph w] \/ blocks = [Heading name 1; Paragraph w])))).
Proof.
  intros Hwf. unfold executed.
  destruct (generation_target T env (typed env s)) as [s1|] eqn:Hg.
  - right. destruct (target_generates T env s s1 at_least_two Hg) as [name Hgen].
    destruct (generation_target_step T env _ _ at_least_two Hg) as [-> Hr].
    untyped. unfold handle_effect. rewrite Hg. unfold generated. fields. untyped.
    rewrite (proj2 Hgen).
    exists name,
      (generation_text env name create_system_prompt (model_choice env)
         (set_step (step s + 1) (typed env s))),
      (generation_blocks env name create_system_prompt (model_choice env)
         (set_step (step s + 1) (typed env s))).
    repeat (split; [first [exact Hgen|lia|reflexivity]|]).
    apply generation_shapes.
  - left. apply (handle_effect_idle T env _ _ _ Hg).
Qed.

End ExecutedCases.

(** ** Invariants of lifetimes *)

Section Invariants.

Variable T : list string.
Hypothesis at_least_two : 2 <= len T.

(** A property of well-formed states that every whole execution and the step
    reset preserve holds throughout a lifetime, from a store that holds a state
    with the property or from an empty store if the fresh state has it. *)
Lemma lifetime_preserves (P : SessionState -> Prop) :
  (forall env s, well_formed T s -> P s -> P (executed T env s)) ->
  (forall s, P s -> P (set_step (-1) s)) ->
  forall cs store high,
    well_formed T (init_session_state T store) -> P (init_session_state T store) ->
    forall s', fst (lifetime T cs store high) = Some s' -> well_formed T s' /\ P s'.
Proof.
  intros Hexec Hreset. induction cs as [|c cs IH]; intros store high Hwf HP s' Hs'.
  - cbn in Hs'. subst store. auto.
  - cbn [lifetime] in Hs'. revert Hs'. apply IH.
    all: destruct (perform_cases T at_least_two c store
                     ltac:(intros s ->; exact Hwf))
      as [->|[(env & s0 & -> & Hc & Hs0 & ->)|(env & s & -> & -> & _ & _ & ->)]];
      cbn [init_session_state] in *; subst; auto.
    + apply executed_well_formed; assumption.
    + destruct Hwf as [Hs Hl]. split; [fields; lia|exact Hl].
Qed.

Lemma reachable_invariant (P : SessionState -> Prop) :
  P (fresh_session T) ->
  (forall env s, well_formed T s -> P s -> P (executed T env s)) ->
  (forall s, P s -> P (set_step (-1) s)) ->
  forall s, reachable T s -> P s.
Proof.
  intros Hfresh Hexec Hreset s [cs Hcs].
  apply (lifetime_preserves P Hexec Hreset cs None (-1)
           (fresh_session_well_formed T) Hfresh s Hcs).
Qed.

End Invariants.

(** After a paragraph, one more paragraph completes no entry. *)
Lemma entries_after_paragraph (d : Document) (a t : string) :
  entries ((d ++ [Paragraph a]) ++ [Paragraph t]) = entries (d ++ [Paragraph a]).
Proof.
  induction d as [|x d IH]; [reflexivity|].
  destruct x as [h lvl|p]; [|exact IH].
  destruct d as [|y d'].
  - destruct lvl as [|[]|]; reflexivity.
  - destruct y as [h' lvl'|p'].
    + destruct lvl as [|[]|]; exact IH.
    + destruct lvl as [|[q|q|]|]; try exact IH.
      cbn [app entries] in *. rewrite IH. reflexivity.
Qed.

Lemma orderly_fresh (T : list string) : orderly T (fresh_session T).
Proof. split; [eexists; reflexivity|]. split; [constructor|]. reflexivity. Qed.

Lemma orderly_section_appended (T : list string) (s : SessionState) (name w : string) :
  name ∈ T -> orderly T s ->
  orderly T (set_doc (doc s ++ [Heading name 1; Paragraph w]) s).
Proof.
  intros Hname ([rest Hrest] & Hin & Hclosed). unfold orderly. fields.
  split; [rewrite Hrest; eexists; reflexivity|]. split.
  - rewrite entries_section_appended. apply Forall_app. split; [exact Hin|].
    constructor; [exact Hname|constructor].
  - intros t.
    change (doc s ++ [Heading name 1; Paragraph w])
      with (doc s ++ [Heading name 1] ++ [Paragraph w]).
    rewrite app_assoc. apply entries_after_paragraph.
Qed.

Lemma orderly_doc (T : list string) (s s' : SessionState) :
  doc s' = doc s -> orderly T s -> orderly T s'.
Proof. unfold orderly. intros ->. auto. Qed.

Lemma orderly_executed (T : list string) (env : Env) (s : SessionState) :
  2 <= len T -> well_formed T s -> orderly T s -> orderly T (executed T env s).
Proof.
  intros HN Hwf Ho.
  destruct (executed_cases T HN env s Hwf)
    as [[_ Hd]|(name & c & blocks & Hgen & _ & _ & _ & Hd & Hshape)];
    [exact (orderly_doc T s _ Hd Ho)|].
  assert (Hname : name ∈ T) by (eapply list_elem_of_lookup_2, (proj2 Hgen)).
  destruct Hshape as [->|[_ [->|[w [->| ->]]]]].
  - apply (orderly_doc T (set_doc (doc s ++ [Heading name 1; Paragraph c]) s));
      [exact Hd|]. apply orderly_section_appended; assumption.
  - rewrite app_nil_r in Hd. exact (orderly_doc T s _ Hd Ho).
  - destruct Ho as ([rest Hrest] & Hin & Hclosed). unfold orderly. rewrite Hd.
    split; [rewrite Hrest; eexists; reflexivity|]. split.
    + rewrite Hclosed. exact Hin.
    + intros t. apply entries_after_paragraph.
  - apply (orderly_doc T (set_doc (doc s ++ [Heading name 1; Paragraph w]) s));
      [exact Hd|]. apply orderly_section_appended; assumption.
Qed.

Lemma reachable_orderly (T : list string) (s : SessionState) :
  2 <= len T -> reachable T s -> orderly T s.
Proof.
  intros HN. apply (reachable_invariant T HN (orderly T)).
  - apply orderly_fresh.
  - intros env s0 Hwf Ho. apply orderly_executed; assumption.
  - intros s0 H. exact H.
Qed.

(** What one execution adds to the entries of the document. *)
Lemma executed_entries (T : list string) (env : Env) (s : SessionState) :
  2 <= len T -> well_formed T s -> orderly T s ->
  entries (doc (executed T env s))
    = entries (doc s) ++ option_list (added_entry T env s).
Proof.
  intros HN Hwf (_ & _ & Hclosed).
  unfold added_entry, generated_section.
  destruct (generation_target T env (typed env s)) as [s1|] eqn:Hg.
  - destruct (target_generates T env s s1 HN Hg) as [name Hgen].
    destruct (generation_target_step T env _ _ HN Hg) as [-> _].
    fields. untyped. rewrite (proj2 Hgen).
    destruct (generates_executed T env s name Hgen) as (-> & _ & _).
    fields. untyped. unfold generation_blocks, request_for.
    destruct (chat_completion env _) as [c|e];
      [|cbn; rewrite !app_nil_r; reflexivity].
    destruct (docx_error env name) as [e|];
      [cbn; rewrite app_nil_r; apply Hclosed|].
    destruct (docx_error env c) as [e|]; cbn [option_list option_rect];
      apply entries_section_appended.
  - destruct (handle_effect_idle T env create_system_prompt (model_choice env) _ Hg)
      as [_ Hd].
    unfold executed. rewrite Hd. untyped. cbn. rewrite app_nil_r. reflexivity.
Qed.

(** The entries at the end of a lifetime are those at its start followed by
    the log of the lifetime. *)
Lemma lifetime_entries (T : list string) (cs : list Call) :
  2 <= len T ->
  forall store high s',
    well_formed T (init_session_state T store) ->
    orderly T (init_session_state T store) ->
    fst (lifetime T cs store high) = Some s' ->
    entries (doc s')
      = entries (doc (init_session_state T store)) ++ generation_log T cs store.
Proof.
  intros HN. induction cs as [|c cs IH]; intros store high s' Hwf Ho Hs'.
  - cbn in Hs'. subst store. cbn. rewrite app_nil_r. reflexivity.
  - cbn [lifetime] in Hs'. cbn [generation_log]. rewrite app_assoc.
    destruct c as [env|env].
    + destruct (configured_dec env) as [Hc|Hc].
      * assert (Hp : perform T (Whole env) store
                     = Some (executed T env (init_session_state T store))).
        { destruct store as [s|]; cbn [init_session_state] in *;
            [apply perform_whole; assumption|apply perform_first; assumption]. }
        pose proof Hc as Hif. unfold configured in Hif. rewrite Hif.
        rewrite <- (executed_entries T env _ HN Hwf Ho).
        rewrite Hp in *.
        refine (IH (Some (executed T env (init_session_state T store))) _ s' _ _ Hs');
          [apply executed_well_formed; assumption
          |apply orderly_executed; assumption].
      * rewrite (perform_unconfigured T env store Hc) in *.
        unfold configured in Hc.
        destruct (truthy (api_key env) && truthy (model_choice env));
          [contradiction|].
        rewrite app_nil_r. exact (IH store _ s' Hwf Ho Hs').
    + rewrite app_nil_r. destruct store as [s|].
      * rewrite perform_completion in *. cbn [init_session_state] in *.
        destruct ((len T <=? step s) && bool_decide (clicked env = Some StartOver)).
        -- refine (IH (Some (set_step (-1) s)) _ s' _ Ho Hs').
           split; [cbn [init_session_state]; fields; lia|apply Hwf].
        -- exact (IH (Some s) _ s' Hwf Ho Hs').
      * exact (IH None _ s' Hwf Ho Hs').
Qed.

(** X1. In every state a lifetime can reach, the document starts with the
    title heading, every entry is headed by a name of the section template,
    and the entries are in generation order: they are the log of the
    lifetime, i.e. one entry for each execution that generated a section and
    got its heading into the document, in the order of these executions,
    made of the name of that section and the paragraph written for it.  A
    section generated twice has two entries. *)
Theorem entries_are_in_generation_order
        (T : list string) (cs : list Call) (s : SessionState) :
  2 <= len T -> after T cs = Some s ->
  (exists rest, doc s = Heading "Business Plan" 0 :: rest) /\
  Forall (fun e => fst e ∈ T) (entries (doc s)) /\
  entries (doc s) = generation_log T cs None.
Proof.
  intros HN Hs.
  destruct (reachable_orderly T s HN (ex_intro _ cs Hs)) as (Htitle & Hin & _).
  split; [exact Htitle|]. split; [exact Hin|].
  pose proof (lifetime_entries T cs HN None (-1) s
                (fresh_session_well_formed T) (orderly_fresh T) Hs) as H.
  exact H.
Qed.

Lemma entries_are_in_generation_order_witness :
  entries (doc (state_after App.SECTIONS_TEMPLATE rejected_second_section))
  = [("Executive Summary", "textA");
     ("Company Description", "draft" +:+ nl);
     ("Market Analysis", "textC")].
Proof.
  destruct (entries_are_in_generation_order App.SECTIONS_TEMPLATE
              rejected_second_section
              (state_after App.SECTIONS_TEMPLATE rejected_second_section))
    as (_ & _ & H).
  - vm_compute; discriminate.
  - vm_compute; reflexivity.
  - rewrite H. vm_compute. reflexivity.
Defined.

(** X2. In every state a lifetime can reach, a content slot that is not empty
    holds a text that is in the document, as the paragraph of an entry whose
    heading is the name of that slot's section. *)
Theorem shown_content_is_in_document
        (T : list string) (s : SessionState) (i : nat) (name text : string) :
  2 <= len T -> reachable T s ->
  T !! i = Some name -> section_contents s !! i = Some text -> text <> "" ->
  (name, text) ∈ entries (doc s).
Proof.
  intros HN Hr. revert i name text.
  apply (reachable_invariant T HN
           (fun s => forall i name text,
                T !! i = Some name -> section_contents s !! i = Some text ->
                text <> "" -> (name, text) ∈ entries (doc s))); [| | |exact Hr].
  - intros i name text _ Hslot Hne. cbn in Hslot.
    apply lookup_replicate in Hslot. destruct Hslot as [-> _]. contradiction.
  - intros env s0 Hwf IH i name text Hname Hslot Hne.
    destruct (executed_cases T HN env s0 Hwf)
      as [[Hc Hd]|(name' & c & blocks & [_ Hname'] & _ & _ & Hc & Hd & Hshape)].
    + rewrite Hc in Hslot. rewrite Hd. eauto.
    + rewrite Hc in Hslot. rewrite Hd.
      destruct (decide (i = Z.to_nat (step s0 + 1))) as [->|Hi].
      * assert (Hlt : (Z.to_nat (step s0 + 1) < length (section_contents s0))%nat).
        { apply lookup_lt_Some in Hslot. rewrite length_insert in Hslot. exact Hslot. }
        rewrite list_lookup_insert_eq in Hslot by exact Hlt.
        injection Hslot as ->. rewrite Hname' in Hname. injection Hname as ->.
        destruct Hshape as [->|[-> _]]; [|contradiction].
        rewrite entries_section_appended. apply elem_of_app. right. constructor.
      * rewrite list_lookup_insert_ne in Hslot by congruence.
        pose proof (IH i name text Hname Hslot Hne) as Hin.
        destruct Hshape as [->|[_ [->|[w [->| ->]]]]].
        -- rewrite entries_section_appended. apply elem_of_app. left. exact Hin.
        -- rewrite app_nil_r. exact Hin.
        -- destruct (entries_block_appended (doc s0) (Paragraph w)) as [->|[e ->]];
             [exact Hin|apply elem_of_app; left; exact Hin].
        -- rewrite entries_section_appended. apply elem_of_app. left. exact Hin.
  - intros s0 IH. exact IH.
Qed.

Lemma shown_content_is_in_document_witness :
  ("Company Description", "textB2")
    ∈ entries (doc (state_after App.SECTIONS_TEMPLATE second_section_twice)).
Proof.
  apply (shown_content_is_in_document App.SECTIONS_TEMPLATE
           (state_after App.SECTIONS_TEMPLATE second_section_twice) 1%nat).
  - vm_compute; discriminate.
  - exists second_section_twice. vm_compute. reflexivity.
  - reflexivity.
  - vm_compute. reflexivity.
  - discriminate.
Defined.

(** X3. In every state a lifetime can reach there is exactly one content slot
    per section of the template. *)
Theorem one_slot_per_section (T : list string) (s : SessionState) :
  2 <= len T -> reachable T s -> len (section_contents s) = len T.
Proof.
  intros HN Hr. destruct (reachable_well_formed T HN s Hr) as [_ Hl].
  unfold len. rewrite Hl. reflexivity.
Qed.

Lemma one_slot_per_section_witness :
  len (section_contents (state_after App.SECTIONS_TEMPLATE second_section_twice)) = 9.
Proof.
  apply (one_slot_per_section App.SECTIONS_TEMPLATE);
    [vm_compute; discriminate|].
  exists second_section_twice. vm_compute. reflexivity.
Defined.

(** X4. The document only grows: whatever calls follow, the document stored
    before is a prefix of the document stored after. *)
Theorem document_only_grows
        (T : list string) (cs : list Call) (s s' : SessionState) (high : Z) :
  2 <= len T -> well_formed T s ->
  fst (lifetime T cs (Some s) high) = Some s' ->
  doc s `prefix_of` doc s'.
Proof.
  intros HN Hwf Hl.
  apply (lifetime_preserves T HN (fun x => doc s `prefix_of` doc x)) in Hl;
    [apply Hl| | |exact Hwf|reflexivity].
  - intros env s0 Hwf0 Hp.
    destruct (executed_cases T HN env s0 Hwf0)
      as [[_ ->]|(name & c & blocks & _ & _ & _ & _ & -> & _)]; [exact Hp|].
    etransitivity; [exact Hp|]. apply prefix_app_r. reflexivity.
  - intros s0 Hp. exact Hp.
Qed.

Lemma document_only_grows_witness :
  doc (fresh_session App.SECTIONS_TEMPLATE)
    `prefix_of` doc (state_after App.SECTIONS_TEMPLATE second_section_twice).
Proof.
  apply (document_only_grows App.SECTIONS_TEMPLATE second_section_twice _ _ (-1)).
  - vm_compute; discriminate.
  - apply fresh_session_well_formed.
  - vm_compute. reflexivity.
Defined.

(** ** After completion, over whole executions *)

Lemma executed_when_complete (T : list string) (env : Env) (s : SessionState) :
  step s = len T -> executed T env s = typed env s.
Proof.
  intros Hs. unfold executed, handle_effect, generation_target. untyped.
  unfold len in *.
  destruct (clicked env) as [[]|]; split_tests; reflexivity.
Qed.

(** X5. The completed state is final for whole executions: once the step is
    N, no sequence of further executions of the script, whatever is clicked,
    changes the step, a content slot or the document. *)
Theorem completed_state_is_final
        (T : list string) (cs : list Call) (s : SessionState) (high : Z) :
  2 <= len T -> well_formed T s -> step s = len T ->
  Forall (fun c => is_whole c = true) cs ->
  exists s',
    fst (lifetime T cs (Some s) high) = Some s' /\
    step s' = len T /\
    section_contents s' = section_contents s /\
    doc s' = doc s.
Proof.
  intros HN Hwf Hs Hcs. revert s high Hwf Hs.
  induction Hcs as [|c cs Hc _ IH]; intros s high Hwf Hs.
  - exists s. auto.
  - destruct c as [env|env]; [|discriminate]. cbn [lifetime].
    destruct (configured_dec env) as [Hconf|Hconf].
    + rewrite (perform_whole T HN env s Hconf Hwf), executed_when_complete by exact Hs.
      destruct (IH (typed env s) (Z.max high (step_of (Some (typed env s))))
                  (typed_well_formed T env s Hwf) Hs) as (s' & Hl & H1 & H2 & H3).
      exists s'. auto.
    + rewrite (perform_unconfigured T env (Some s) Hconf). apply IH; assumption.
Qed.

Lemma completed_state_is_final_witness :
  exists s',
    fst (lifetime App.SECTIONS_TEMPLATE
           [Whole (click StartOver (Content "")); Whole rerun;
            Whole (click PreviousSection (Content ""))]
           (Some (state_after App.SECTIONS_TEMPLATE straight_through)) 9) = Some s' /\
    step s' = 9.
Proof.
  destruct (completed_state_is_final App.SECTIONS_TEMPLATE
              [Whole (click StartOver (Content "")); Whole rerun;
               Whole (click PreviousSection (Content ""))]
              (state_after App.SECTIONS_TEMPLATE straight_through) 9)
    as (s' & Hl & Hs & _).
  - vm_compute; discriminate.
  - split; [vm_compute; split; discriminate|vm_compute; reflexivity].
  - vm_compute; reflexivity.
  - repeat constructor.
  - exists s'. split; [exact Hl|exact Hs].
Defined.

Lemma main_stops_when_complete_witness :
  ended (main App.SECTIONS_TEMPLATE (click StartOver (Content ""))
           (Some (state_after App.SECTIONS_TEMPLATE straight_through)))
    = Raises StreamlitAPIException.
Proof.
  apply (main_stops_when_complete App.SECTIONS_TEMPLATE (click StartOver (Content ""))
           (state_after App.SECTIONS_TEMPLATE straight_through)).
  - vm_compute; discriminate.
  - split; [vm_compute; split; discriminate|vm_compute; reflexivity].
  - reflexivity.
  - vm_compute; reflexivity.
Defined.

(** ** The form *)

(** X6. [input_ui] never raises and touches nothing but the five profile
    fields: each becomes what the form reports for it (its old value when
    nothing new was submitted); the step, the content slots and the document
    stay.  It renders the submit button, and the success message exactly when
    that button was clicked. *)
Theorem input_ui_changes_only_the_profile (env : Env) (s : SessionState) (o : list UiOut) :
  outcome (input_ui env s o) = Returns tt /\
  step (session (input_ui env s o)) = step s /\
  section_contents (session (input_ui env s o)) = section_contents s /\
  doc (session (input_ui env s o)) = doc s /\
  business_name (session (input_ui env s o))
    = default (business_name s) (in_business_name env) /\
  industry (session (input_ui env s o)) = default (industry s) (in_industry env) /\
  core_product (session (input_ui env s o))
    = default (core_product s) (in_core_product env) /\
  problem_solved (session (input_ui env s o))
    = default (problem_solved s) (in_problem_solved env) /\
  additional_info (session (input_ui env s o))
    = default (additional_info s) (in_additional_info env) /\
  shown (input_ui env s o)
    = o ++ ButtonShown SaveBusinessDetails
        :: (if bool_decide (clicked env = Some SaveBusinessDetails)
            then [Success "Business details saved!"] else []).
Proof.
  unfold input_ui. rewrite bind_get. cbv beta. rewrite bind_modify. cbv beta.
  rewrite bind_button. cbv beta.
  destruct (bool_decide (clicked env = Some SaveBusinessDetails)).
  - unfold render. cbn. rewrite <- app_assoc. repeat split.
  - unfold ret. cbn. repeat split.
Qed.

(** ** The generation call *)

(** X7. [generate_section_content] never raises and never touches the step,
    the content slots or the profile.  When the call fails it returns the
    empty string, shows the error and leaves the document as it is.  When the
    document library rejects the name of the section it returns the empty
    string, shows the error, and the document has one more paragraph, with
    what was written of the name.  When the library rejects the text it
    returns the empty string, shows the error, and the document has the
    heading of the section and a paragraph with what was written of the text.
    Otherwise it returns the text, shows nothing, and the document has the
    heading of the section and the paragraph with the text. *)
Theorem generation_failure_is_contained
        (env : Env) (name sp m : string) (s : SessionState) (o : list UiOut) :
  exists text,
    outcome (generate_section_content env name sp m s o) = Returns text /\
    step (session (generate_section_content env name sp m s o)) = step s /\
    section_contents (session (generate_section_content env name sp m s o))
      = section_contents s /\
    profile (session (generate_section_content env name sp m s o)) = profile s /\
    match chat_completion env (mkRequest m sp (user_input name s)) with
    | ApiError e =>
        text = "" /\
        doc (session (generate_section_content env name sp m s o)) = doc s /\
        shown (generate_section_content env name sp m s o)
          = o ++ [Error ("An error occurred: " +:+ e)]
    | Content c =>
        match docx_error env name with
        | Some e =>
            text = "" /\
            doc (session (generate_section_content env name sp m s o))
              = doc s ++ [Paragraph (written e)] /\
            shown (generate_section_content env name sp m s o)
              = o ++ [Error ("An error occurred: " +:+ message e)]
        | None =>
            match docx_error env c with
            | Some e =>
                text = "" /\
                doc (session (generate_section_content env name sp m s o))
                  = doc s ++ [Heading name 1; Paragraph (written e)] /\
                shown (generate_section_content env name sp m s o)
                  = o ++ [Error ("An error occurred: " +:+ message e)]
            | None =>
                text = c /\
                doc (session (generate_section_content env name sp m s o))
                  = doc s ++ [Heading name 1; Paragraph c] /\
                shown (generate_section_content env name sp m s o) = o
            end
        end
    end.
Proof.
  rewrite generate_section_content_run.
  unfold generation_text, generation_blocks, generation_messages.
  destruct (chat_completion env _) as [c|e];
    [destruct (docx_error env name) as [e|];
     [|destruct (docx_error env c) as [e|]]|];
    eexists; cbn; rewrite ?app_nil_r; repeat split.
Qed.

(** ** What an execution asks of the language model *)


(** X8. An execution that is neither a click on Start Generating at step -1
    nor a click on Next Section at 0 <= step < N-1 does not consult the
    language model: with any other model behind it, it stores the same state
    and ends the same way. *)
Theorem idle_execution_ignores_language_model
        (T : list string) (env : Env) (s : SessionState)
        (f : ChatRequest -> Completion) :
  2 <= len T -> well_formed T s -> configured env ->
  (forall name, ~ generates T env s name) ->
  stored (main T (with_chat_completion f env) (Some s)) = stored (main T env (Some s)) /\
  ended (main T (with_chat_completion f env) (Some s)) = ended (main T env (Some s)).
Proof.
  intros HN Hwf Hc Hno.
  assert (Hc' : configured (with_chat_completion f env)) by exact Hc.
  rewrite !main_stored, !main_ended by assumption.
  assert (Hg : generation_target T env (typed env s) = None).
  { destruct (generation_target T env (typed env s)) as [s1|] eqn:Hg; [|reflexivity].
    destruct (target_generates T env s s1 HN Hg) as [name Hname].
    destruct (Hno name Hname). }
  assert (Hg' : generation_target T (with_chat_completion f env)
                  (typed (with_chat_completion f env) s) = None) by exact Hg.
  unfold executed, handle_effect, handle_outcome. rewrite Hg, Hg'. split; reflexivity.
Qed.

Lemma idle_execution_ignores_language_model_witness :
  stored (main App.SECTIONS_TEMPLATE
            (with_chat_completion (fun _ => Content "other")
               (click PreviousSection (Content "")))
            (Some (state_after App.SECTIONS_TEMPLATE first_section_only)))
  = stored (main App.SECTIONS_TEMPLATE (click PreviousSection (Content ""))
              (Some (state_after App.SECTIONS_TEMPLATE first_section_only))).
Proof.
  apply (idle_execution_ignores_language_model App.SECTIONS_TEMPLATE
           (click PreviousSection (Content ""))
           (state_after App.SECTIONS_TEMPLATE first_section_only)
           (fun _ => Content "other")).
  - vm_compute; discriminate.
  - split; [vm_compute; split; discriminate|vm_compute; reflexivity].
  - reflexivity.
  - intros name [[[Hc _]|[Hc _]] _]; discriminate Hc.
Defined.

Lemma generation_with_chat_completion env f name sp m s :
  f (mkRequest m sp (user_input name s))
    = chat_completion env (mkRequest m sp (user_input name s)) ->
  generation_text (with_chat_completion f env) name sp m s
    = generation_text env name sp m s /\
  generation_blocks (with_chat_completion f env) name sp m s
    = generation_blocks env name sp m s.
Proof.
  unfold generation_text, generation_blocks.
  cbn [chat_completion with_chat_completion]. intros ->. split; reflexivity.
Qed.

(** X9. A generating execution consults the language model for one request
    only, the one for the section at the next step built from the profile the
    form reports: another model that gives the same answer to that request
    leads to the same stored state and the same ending. *)
Theorem generating_execution_asks_one_request
        (T : list string) (env : Env) (s : SessionState) (name : string)
        (f : ChatRequest -> Completion) :
  2 <= len T -> well_formed T s -> configured env -> generates T env s name ->
  f (request_for env s name) = chat_completion env (request_for env s name) ->
  stored (main T (with_chat_completion f env) (Some s)) = stored (main T env (Some s)) /\
  ended (main T (with_chat_completion f env) (Some s)) = ended (main T env (Some s)).
Proof.
  intros HN Hwf Hc Hg Hf.
  assert (Hc' : configured (with_chat_completion f env)) by exact Hc.
  assert (Hg' : generates T (with_chat_completion f env) s name) by exact Hg.
  rewrite !main_stored, !main_ended by assumption.
  destruct (generates_executed T env s name Hg) as (-> & -> & _).
  destruct (generates_executed T (with_chat_completion f env) s name Hg') as (-> & -> & _).
  destruct (generation_with_chat_completion env f name create_system_prompt
              (model_choice env) (typed env s) Hf) as (Ht & Hb).
  rewrite <- Ht, <- Hb. split; reflexivity.
Qed.

Lemma generating_execution_asks_one_request_witness :
  stored (main App.SECTIONS_TEMPLATE
            (with_chat_completion
               (fun r => if String.eqb (req_model r) "gpt-3.5-turbo"
                         then Content "textA" else ApiError "wrong model")
               (click StartGenerating (Content "textA")))
            (Some (fresh_session App.SECTIONS_TEMPLATE)))
  = stored (main App.SECTIONS_TEMPLATE (click StartGenerating (Content "textA"))
              (Some (fresh_session App.SECTIONS_TEMPLATE))).
Proof.
  apply (generating_execution_asks_one_request App.SECTIONS_TEMPLATE
           (click StartGenerating (Content "textA"))
           (fresh_session App.SECTIONS_TEMPLATE) "Executive Summary").
  - vm_compute; discriminate.
  - apply fresh_session_well_formed.
  - reflexivity.
  - split; [left; split; reflexivity|reflexivity].
  - reflexivity.
Defined.

(** ** Without key or model *)

(** X10. When the API key or the model is empty, an execution does nothing
    but show the warning: what is stored stays as it is (nothing is
    initialised if nothing was stored), whatever was clicked or submitted. *)
Theorem main_needs_key_and_model
        (T : list string) (env : Env) (store : option SessionState) :
  api_key env = "" \/ model_choice env = "" ->
  main T env store =
    (store, Returns tt,
     [Warning "Please enter your OpenAI API Key and select a model to start."]).
Proof.
  intros [H|H]; unfold main; rewrite H; cbn [truthy String.eqb negb andb];
    rewrite ?andb_false_r; reflexivity.
Qed.

Lemma main_needs_key_and_model_witness :
  stored (main App.SECTIONS_TEMPLATE
            (mkEnv "" "gpt-3.5-turbo" (Some "Acme") None None None None
               (Some StartGenerating) (fun _ => Content "textA") plain_docx)
            None) = None.
Proof.
  rewrite (main_needs_key_and_model App.SECTIONS_TEMPLATE
             (mkEnv "" "gpt-3.5-turbo" (Some "Acme") None None None None
                (Some StartGenerating) (fun _ => Content "textA") plain_docx)
             None (or_introl eq_refl)).
  reflexivity.
Defined.

(** ** Frames of a whole execution *)

(** X11. A generating execution writes one content slot only, the one at the
    next step: the number of slots and every other slot stay as they were. *)
Theorem generation_overwrites_only_its_slot
        (T : list string) (env : Env) (s : SessionState) (name : string) :
  2 <= len T -> well_formed T s -> configured env -> generates T env s name ->
  exists s',
    stored (main T env (Some s)) = Some s' /\
    length (section_contents s') = length (section_contents s) /\
    forall i : nat, i <> Z.to_nat (step s + 1) ->
                    section_contents s' !! i = section_contents s !! i.
Proof.
  intros HN Hwf Hc Hg. exists (executed T env s).
  split; [apply main_stored; assumption|].
  destruct (generates_executed T env s name Hg) as (-> & _ & _).
  fields; untyped. split; [apply length_insert|].
  intros i Hi. apply list_lookup_insert_ne. congruence.
Qed.

Lemma generation_overwrites_only_its_slot_witness :
  exists s',
    stored (main App.SECTIONS_TEMPLATE (click NextSection (ApiError "timeout"))
              (Some (state_after App.SECTIONS_TEMPLATE first_section_only))) = Some s' /\
    section_contents s' !! 0%nat = Some "textA".
Proof.
  destruct (generation_overwrites_only_its_slot App.SECTIONS_TEMPLATE
              (click NextSection (ApiError "timeout"))
              (state_after App.SECTIONS_TEMPLATE first_section_only)
              "Company Description")
    as (s' & Hst & _ & Hframe).
  - vm_compute; discriminate.
  - split; [vm_compute; split; discriminate|vm_compute; reflexivity].
  - reflexivity.
  - split; [right; split; [reflexivity|vm_compute; split; [discriminate|reflexivity]]
           |vm_compute; reflexivity].
  - exists s'. split; [exact Hst|]. rewrite Hframe; [vm_compute; reflexivity|].
    vm_compute. discriminate.
Defined.

(** X12. A whole execution changes the profile only through the form:
    whatever is clicked and whether or not a section is generated, each of the
    five fields afterwards is what the form reported for it, and its old value
    when nothing new was submitted. *)
Theorem execution_changes_profile_only_through_form
        (T : list string) (env : Env) (s : SessionState) :
  2 <= len T -> well_formed T s -> configured env ->
  exists s',
    stored (main T env (Some s)) = Some s' /\
    business_name s' = default (business_name s) (in_business_name env) /\
    industry s' = default (industry s) (in_industry env) /\
    core_product s' = default (core_product s) (in_core_product env) /\
    problem_solved s' = default (problem_solved s) (in_problem_solved env) /\
    additional_info s' = default (additional_info s) (in_additional_info env).
Proof.
  intros HN Hwf Hc. exists (executed T env s).
  split; [apply main_stored; assumption|].
  pose proof (handle_effect_profile T env create_system_prompt (model_choice env)
                (typed env s)) as Hp.
  fold (executed T env s) in Hp. unfold profile in Hp.
  injection Hp as -> -> -> -> ->. repeat split.
Qed.

Lemma execution_changes_profile_only_through_form_witness :
  exists s',
    stored (main App.SECTIONS_TEMPLATE
              (mkEnv "sk-test" "gpt-3.5-turbo" (Some "Acme") None None None None
                 (Some StartGenerating) (fun _ => Content "textA") plain_docx)
              (Some (fresh_session App.SECTIONS_TEMPLATE))) = Some s' /\
    business_name s' = "Acme" /\ industry s' = "".
Proof.
  destruct (execution_changes_profile_only_through_form App.SECTIONS_TEMPLATE
              (mkEnv "sk-test" "gpt-3.5-turbo" (Some "Acme") None None None None
                 (Some StartGenerating) (fun _ => Content "textA") plain_docx)
              (fresh_session App.SECTIONS_TEMPLATE))
    as (s' & Hst & Hb & Hi & _).
  - vm_compute; discriminate.
  - apply fresh_session_well_formed.
  - reflexivity.
  - exists s'. split; [exact Hst|]. split; [exact Hb|exact Hi].
Defined.

(** ** The progress bar *)

Lemma fraction_as_ratio (a d : Z) :
  0 < d -> (inject_Z a / inject_Z d == a # Z.to_pos d)%Q.
Proof.
  intros Hd. destruct d as [|p|p]; try lia.
  unfold Qdiv, Qinv, Qmult, Qeq, inject_Z. cbn. lia.
Qed.

(** X13. For a template of at least two sections [calculate_progress] never
    raises and leaves the state alone; the value is 0 exactly before and on
    the first section (step <= 0), 1 exactly on the last section
    (step = N - 1), and it does not decrease when the step grows. *)
Theorem progress_endpoints (T : list string) (s : SessionState) (o : list UiOut) :
  2 <= len T ->
  exists q,
    calculate_progress T s o = mkRun (Returns q) s o /\
    ((q == 0)%Q <-> step s <= 0) /\
    ((q == 1)%Q <-> step s = len T - 1) /\
    forall s' o' q',
      step s <= step s' ->
      calculate_progress T s' o' = mkRun (Returns q') s' o' -> (q <= q')%Q.
Proof.
  intros HN.
  assert (Hrun : forall x y,
             calculate_progress T x y
             = mkRun (Returns (inject_Z (Z.max 0 (step x)) / inject_Z (len T - 1))%Q) x y).
  { intros x y. unfold calculate_progress. rewrite bind_get. cbv beta.
    destruct (Z.eqb_spec (len T - 1) 0); [lia|reflexivity]. }
  eexists. split; [apply Hrun|]. split; [|split].
  - rewrite fraction_as_ratio by lia. unfold Qeq. cbn. lia.
  - rewrite fraction_as_ratio by lia. unfold Qeq. cbn.
    rewrite Z2Pos.id by lia. lia.
  - intros s' o' q' Hle Hq'. rewrite Hrun in Hq'. injection Hq' as <-.
    rewrite !fraction_as_ratio by lia. unfold Qle. cbn.
    apply Z.mul_le_mono_nonneg_r; lia.
Qed.

Lemma progress_endpoints_witness :
  exists q,
    calculate_progress App.SECTIONS_TEMPLATE
      (set_step 8 (fresh_session App.SECTIONS_TEMPLATE)) []
    = mkRun (Returns q) (set_step 8 (fresh_session App.SECTIONS_TEMPLATE)) [] /\
    (q == 1)%Q.
Proof.
  destruct (progress_endpoints App.SECTIONS_TEMPLATE
              (set_step 8 (fresh_session App.SECTIONS_TEMPLATE)) []
              ltac:(vm_compute; discriminate)) as (q & Hrun & _ & Hone & _).
  exists q. split; [exact Hrun|]. apply Hone. vm_compute. reflexivity.
Defined.

(** ** Degenerate templates *)

(** X14. With a template of a single section the section page cannot be
    rendered: at every step >= 0 [handle_section_generation] raises
    [ZeroDivisionError] in [calculate_progress], before anything is shown and
    before any button is looked at, and leaves the state as it is. *)
Theorem single_section_template_divides_by_zero
        (T : list string) (env : Env) (sp m : string) (s : SessionState) (o : list UiOut) :
  len T = 1 -> 0 <= step s ->
  handle_section_generation T env sp m s o = mkRun (Raises ZeroDivisionError) s o.
Proof.
  intros HN Hs. unfold handle_section_generation. rewrite bind_get. cbv beta.
  destruct (Z.eqb_spec (step s) (-1)); [lia|].
  unfold section_content_ui. rewrite bind_get. cbv beta.
  destruct (Z.leb_spec 0 (step s)); [|lia].
  unfold calculate_progress. rewrite bind_assoc, bind_get. cbv beta.
  rewrite HN. reflexivity.
Qed.

Lemma single_section_template_divides_by_zero_witness :
  handle_section_generation ["Only"] (click NextSection (Content "text"))
    create_system_prompt "gpt-3.5-turbo" (set_step 0 (fresh_session ["Only"])) []
  = mkRun (Raises ZeroDivisionError) (set_step 0 (fresh_session ["Only"])) [].
Proof.
  apply (single_section_template_divides_by_zero ["Only"]);
    [reflexivity|vm_compute; discriminate].
Defined.

(** X15. With an empty template a click on Start Generating raises
    [IndexError] on [SECTIONS_TEMPLATE[0]]: no request is sent, but the step
    has already been set to 0 and stays there. *)
Theorem empty_template_start_raises
        (env : Env) (sp m : string) (s : SessionState) (o : list UiOut) :
  step s = -1 -> clicked env = Some StartGenerating ->
  handle_section_generation [] env sp m s o
  = mkRun (Raises IndexError) (set_step 0 s) (o ++ [ButtonShown StartGenerating]).
Proof.
  intros Hs Hc. unfold handle_section_generation. rewrite bind_get. cbv beta.
  rewrite Hs. cbn [Z.eqb Pos.eqb]. rewrite bind_button. cbv beta.
  rewrite bool_decide_eq_true_2 by exact Hc.
  rewrite bind_modify. cbv beta. reflexivity.
Qed.

Lemma empty_template_start_raises_witness :
  step (session (handle_section_generation [] (click StartGenerating (Content "text"))
                   create_system_prompt "gpt-3.5-turbo" (fresh_session []) [])) = 0.
Proof.
  rewrite (empty_template_start_raises (click StartGenerating (Content "text"))
             create_system_prompt "gpt-3.5-turbo" (fresh_session []) []
             eq_refl eq_refl).
  reflexivity.
Defined.

(** ** What a page offers *)

Lemma downloads_app (p q : list UiOut) : downloads (p ++ q) = downloads p ++ downloads q.
Proof.
  induction p as [|w p IH]; [reflexivity|].
  destruct w; cbn; rewrite IH; reflexivity.
Qed.

Lemma buttons_app (p q : list UiOut) : buttons (p ++ q) = buttons p ++ buttons q.
Proof.
  induction p as [|w p IH]; [reflexivity|].
  destruct w; cbn; rewrite IH; reflexivity.
Qed.

Lemma downloads_generation_errors T env sp m s :
  downloads (generation_errors T env sp m s) = [].
Proof.
  unfold generation_errors. destruct (T !! _); [|reflexivity].
  unfold generation_messages. destruct (chat_completion env _); [|reflexivity].
  destruct (docx_error env _); [reflexivity|].
  destruct (docx_error env _); reflexivity.
Qed.

Ltac page_facts :=
  unfold ret, modify, raise, render; cbn [shown]; rewrite ?downloads_app, ?buttons_app, ?downloads_generation_errors;
  cbn [downloads buttons app]; rewrite ?app_nil_r; try reflexivity.

Section Pages.

Variable T : list string.
Hypothesis at_least_two : 2 <= len T.
Variable env : Env.

Lemma input_ui_full_run s o :
  input_ui env s o =
    mkRun (Returns tt) (typed env s)
          (o ++ ButtonShown SaveBusinessDetails
             :: (if bool_decide (clicked env = Some SaveBusinessDetails)
                 then [Success "Business details saved!"] else [])).
Proof.
  unfold input_ui, typed. rewrite bind_get. cbv beta. rewrite bind_modify. cbv beta.
  rewrite bind_button. cbv beta.
  destruct (bool_decide (clicked env = Some SaveBusinessDetails)).
  - unfold render. rewrite <- app_assoc. reflexivity.
  - reflexivity.
Qed.

(** The section page up to its buttons. *)
Lemma section_content_ui_renders sp m s o :
  0 <= step s < len T -> length (section_contents s) = length T ->
  exists q name value,
    section_content_ui T env sp m s o =
      navigation_buttons T env sp m s
        (o ++ [Progress q; Caption (step s + 1) (len T); TextArea name value]).
Proof.
  intros Hs Hlen.
  unfold section_content_ui, calculate_progress. script. split_tests. script.
  split_tests. script.
  unfold st_progress.
  rewrite (fraction_in_unit_interval (Z.max 0 (step s)) (len T - 1)) by lia.
  script.
  destruct (py_getitem_in_range T (step s) Hs) as (name & Hget & _).
  destruct (py_getitem_in_range (section_contents s) (step s)
              ltac:(unfold len in *; lia)) as (value & Hval & _).
  rewrite (bind_getitem _ _ _ _ _ _ Hget). cbv beta.
  rewrite (bind_getitem _ _ _ _ _ _ Hval). script.
  rewrite <- !app_assoc. do 3 eexists. reflexivity.
Qed.

Lemma navigation_buttons_downloads sp m s o :
  0 <= step s < len T -> length (section_contents s) = length T ->
  downloads (shown (navigation_buttons T env sp m s o)) = downloads o.
Proof.
  intros Hs Hlen. unfold navigation_buttons. script.
  destruct (clicked env) as [b|] eqn:Hc; [destruct b|].
  all: split_tests; script; split_tests; script; try solve [page_facts].
  all: match goal with
       | |- downloads (shown ?r) = _ =>
           let E := fresh in
           eassert (E : r = _)
             by (apply (generation_run T env sp m (set_step (step s + 1) s));
                 [fields; lia|exact Hlen]);
           rewrite E
       end; page_facts.
Qed.

Lemma handle_section_generation_downloads sp m s o :
  well_formed T s ->
  downloads (shown (handle_section_generation T env sp m s o)) = downloads o.
Proof.
  intros [Hs Hlen]. unfold handle_section_generation. script.
  destruct (Z.eqb_spec (step s) (-1)) as [Hm|Hm].
  - script. destruct (clicked env) as [b|] eqn:Hc; [destruct b|].
    all: script; try solve [page_facts].
    match goal with
    | |- downloads (shown ?r) = _ =>
        let E := fresh in
        eassert (E : r = _)
          by (apply (first_generation_run T env sp m (set_step 0 s));
              [reflexivity|lia|exact Hlen]);
        rewrite E
    end. page_facts.
  - destruct (Z.ltb_spec (step s) (len T)) as [Hlt|Hge].
    + destruct (section_content_ui_renders sp m s o ltac:(lia) Hlen)
        as (q & name & value & ->).
      rewrite navigation_buttons_downloads by (lia || assumption). page_facts.
    + rewrite section_content_ui_raises by lia. reflexivity.
Qed.

Lemma main_body_downloads s :
  well_formed T s ->
  downloads (shown (main_body T env s [])) =
    match handle_outcome T env (typed env s) with
    | Returns _ =>
        if len T <=? step (executed T env s)
        then [(doc (executed T env s), "business_plan.docx")] else []
    | Raises _ => []
    end.
Proof.
  intros Hwf. unfold main_body.
  rewrite (bind_returns _ _ _ _ _ _ _ (input_ui_full_run s [])).
  pose proof (handle_section_generation_downloads create_system_prompt (model_choice env)
                (typed env s)
                ([] ++ ButtonShown SaveBusinessDetails
                    :: (if bool_decide (clicked env = Some SaveBusinessDetails)
                        then [Success "Business details saved!"] else []))
                (typed_well_formed T env s Hwf)) as Hd.
  destruct (handle_section_generation_run T env create_system_prompt (model_choice env)
              (typed env s)
              ([] ++ ButtonShown SaveBusinessDetails
                  :: (if bool_decide (clicked env = Some SaveBusinessDetails)
                      then [Success "Business details saved!"] else []))
              at_least_two (typed_well_formed T env s Hwf)) as [o1 Hh].
  rewrite Hh in Hd. cbn [shown] in Hd.
  assert (Hd' : downloads (o1 ++ handle_errors T env create_system_prompt
                                   (model_choice env) (typed env s)) = []).
  { rewrite Hd. destruct (bool_decide _); reflexivity. }
  fold (executed T env s) in Hh.
  destruct (handle_outcome T env (typed env s)) as [[]|e].
  - rewrite (bind_returns _ _ _ _ _ _ _ Hh), completion_ui_run.
    destruct (len T <=? step (executed T env s)); cbn [shown]; [|exact Hd'].
    rewrite downloads_app, Hd'. reflexivity.
  - rewrite (bind_raises _ _ _ _ _ _ _ Hh). exact Hd'.
Qed.

End Pages.

(** X16. The finished document is offered for download by exactly one kind
    of execution: the one in which Complete is clicked on the last section.
    Its page has a single download, the document as it is then, under the
    name business_plan.docx; the page of every other execution on a reachable
    state has none. *)
Theorem download_offered_only_on_complete
        (T : list string) (env : Env) (s : SessionState) :
  2 <= len T -> well_formed T s -> configured env ->
  downloads (page (main T env (Some s))) =
    if bool_decide (clicked env = Some Complete) && (step s =? len T - 1)
    then [(doc s, "business_plan.docx")] else [].
Proof.
  intros HN Hwf Hc. unfold main, page. rewrite Hc. cbn [snd init_session_state].
  rewrite main_body_downloads by assumption.
  destruct Hwf as [Hs _].
  unfold executed, handle_outcome, handle_effect, generation_target. untyped.
  destruct (clicked env) as [[]|] eqn:Hclick;
    rewrite ?bool_decide_eq_true_2 by reflexivity;
    rewrite ?bool_decide_eq_false_2 by discriminate;
    cbn [andb]; split_tests; cbn [andb] in *; fields; untyped; try lia;
    split_tests; try lia; reflexivity.
Qed.

Lemma download_offered_only_on_complete_witness :
  downloads (page (main App.SECTIONS_TEMPLATE (click Complete (Content ""))
                     (Some (set_step 8 (fresh_session App.SECTIONS_TEMPLATE)))))
  = [(doc (fresh_session App.SECTIONS_TEMPLATE), "business_plan.docx")].
Proof.
  rewrite (download_offered_only_on_complete App.SECTIONS_TEMPLATE
             (click Complete (Content ""))
             (set_step 8 (fresh_session App.SECTIONS_TEMPLATE))).
  - reflexivity.
  - vm_compute; discriminate.
  - split; [vm_compute; split; discriminate|vm_compute; reflexivity].
  - reflexivity.
Defined.

Section IdlePages.

Variable T : list string.
Hypothesis at_least_two : 2 <= len T.
Variable env : Env.
Hypothesis no_click : clicked env = None.




End IdlePages.


